(** * Announcements router of the High School Management System API

    A shallow embedding of [src/backend/routers/announcements.py] and the
    verification of its specification.  The four endpoints are modelled as
    computations over the two MongoDB collections the module imports; the
    clock ([datetime.now().isoformat()]) and the server-generated document
    identifier are explicit inputs. *)

From Stdlib Require Import ZArith.
From Stdlib.Strings Require Import Ascii String Byte.
From stdpp Require Import gmap strings list fin_maps.

Local Open Scope Z_scope.

(** ** BSON object identifiers

    [bson.ObjectId] holds a byte string, 12 bytes when generated.
    [ObjectId(s)] on a [str] checks [len(s) == 24], hands [s] to
    [bytes.fromhex] and raises [InvalidId] if either fails; [str(oid)] is
    the lower-case hexadecimal rendering.  Strings are sequences of UTF-8
    bytes; one with a character outside ASCII fails one of the two tests
    here as it does there. *)

Module ObjectId.

Definition t : Type := list byte.

Definition hex_value (c : ascii) : option N :=
  let n := Ascii.N_of_ascii c in
  if ((48 <=? n) && (n <=? 57))%N then Some (n - 48)%N
  else if ((97 <=? n) && (n <=? 102))%N then Some (n - 87)%N
  else if ((65 <=? n) && (n <=? 70))%N then Some (n - 55)%N
  else None.

Definition hex_char (d : N) : ascii :=
  if (d <? 10)%N then Ascii.ascii_of_N (48 + d) else Ascii.ascii_of_N (87 + d).

(** ASCII white space: space, tab, line feed, vertical tab, form feed,
    carriage return. *)
Definition is_space (c : ascii) : bool :=
  let n := Ascii.N_of_ascii c in
  (n =? 32)%N || ((9 <=? n) && (n <=? 13))%N.

(** [bytes.fromhex]: pairs of hexadecimal digits, with ASCII white space
    skipped before each pair (not inside one) and at the end. *)
Fixpoint fromhex (s : string) : option (list byte) :=
  match s with
  | EmptyString => Some []
  | String a rest =>
      if is_space a then fromhex rest
      else match rest with
           | String b rest' =>
               match hex_value a, hex_value b, fromhex rest' with
               | Some hi, Some lo, Some bs =>
                   match Byte.of_N (16 * hi + lo) with
                   | Some x => Some (x :: bs)
                   | None => None
                   end
               | _, _, _ => None
               end
           | EmptyString => None
           end
  end.

(** [binascii.hexlify]: two lower-case digits per byte. *)
Fixpoint hexlify (bs : list byte) : string :=
  match bs with
  | [] => EmptyString
  | b :: rest =>
      String (hex_char (Byte.to_N b / 16))
        (String (hex_char (Byte.to_N b mod 16)) (hexlify rest))
  end.

(** The constructor [ObjectId(oid)] applied to a [str]. *)
Definition validate (oid : string) : option t :=
  if (String.length oid =? 24)%nat then fromhex oid else None.

Definition str (oid : t) : string := hexlify oid.

#[global] Instance byte_eq_dec : EqDecision byte := Byte.byte_eq_dec.

End ObjectId.

(** ** Documents and collections *)

(** The values the router reads and writes in an announcement: [None] or a
    [str]. *)
Inductive value : Type :=
  | VNone
  | VStr (s : string).

#[global] Instance value_eq_dec : EqDecision value.
Proof. solve_decision. Defined.

(** A Python dictionary with string keys, as returned to the caller. *)
Abbreviation dict := (gmap string value).

(** A stored document: the primary key [_id] and the remaining fields. *)
Record document (K : Type) : Type := Doc { _id : K; body : dict }.
Arguments Doc {K} _ _.
Arguments _id {K} _.
Arguments body {K} _.

Abbreviation collection K := (list (document K)).

Module Collection.
Section ops.
Context {K : Type} `{EqDecision K}.

(** Modelled from the spec: [RecordStore.find_all() -> [doc]], the
    [find({})] of the collection exported by [..database]; documents come
    in insertion order. *)
Definition find (c : collection K) : list (document K) := c.

(** Modelled from the spec: [RecordStore.find_by_id(id) -> doc?], the
    [find_one({"_id": k})] of the collection. *)
Fixpoint find_one (k : K) (c : collection K) : option (document K) :=
  match c with
  | [] => None
  | d :: rest => if decide (_id d = k) then Some d else find_one k rest
  end.

(** Modelled from the spec: [RecordStore.insert(doc) -> id], the
    [insert_one] of the collection; [_id] carries a unique index, so an
    identifier already in use is refused. *)
Definition insert_one (d : document K) (c : collection K)
  : option (collection K) :=
  match find_one (_id d) c with
  | Some _ => None
  | None => Some (c ++ [d])
  end.

(** Modelled from the spec: [RecordStore.update(id, patch) -> matched], the
    [update_one({"_id": k}, {"$set": upd})] of the collection: the matched
    count and the collection afterwards. *)
Fixpoint update_one (k : K) (upd : dict) (c : collection K)
  : Z * collection K :=
  match c with
  | [] => (0, [])
  | d :: rest =>
      if decide (_id d = k) then (1, Doc k (upd ∪ body d) :: rest)
      else let '(n, rest') := update_one k upd rest in (n, d :: rest')
  end.

(** Modelled from the spec: [RecordStore.delete(id) -> matched], the
    [delete_one({"_id": k})] of the collection: the deleted count and the
    collection afterwards. *)
Fixpoint delete_one (k : K) (c : collection K) : Z * collection K :=
  match c with
  | [] => (0, [])
  | d :: rest =>
      if decide (_id d = k) then (1, rest)
      else let '(n, rest') := delete_one k rest in (n, d :: rest')
  end.

Definition ids (c : collection K) : list K := map _id c.

(** The unique index on [_id]. *)
Definition unique_ids (c : collection K) : Prop := NoDup (ids c).
End ops.
End Collection.

(** The two collections imported from [..database]. *)
Record database : Type := Database {
  announcements_collection : collection ObjectId.t;
  teachers_collection : collection string
}.

(** ** Exceptions and the handler monad *)

Inductive exn : Type :=
  | HTTPException (status_code : Z) (detail : string)
  | InvalidId
  | DuplicateKeyError
  | TypeError.

Inductive outcome (A : Type) : Type :=
  | Return (a : A)
  | Raise (e : exn).
Arguments Return {A} _.
Arguments Raise {A} _.

(** A handler reads and writes the database and either returns or raises;
    a raised exception leaves the writes made so far in place. *)
Definition handler (A : Type) : Type := database → outcome A * database.

Definition ret {A} (a : A) : handler A := λ db, (Return a, db).
Definition raise {A} (e : exn) : handler A := λ db, (Raise e, db).
Definition bind {A B} (m : handler A) (k : A → handler B) : handler B :=
  λ db, match m db with
        | (Return a, db') => k a db'
        | (Raise e, db') => (Raise e, db')
        end.

Notation "'do' x <- m ; k" := (bind m (λ x, k))
  (at level 10, x name, m at level 100, k at level 200,
   format "'[v' 'do'  x  <-  m ; '/' k ']'").

Definition gets {A} (f : database → A) : handler A :=
  λ db, (Return (f db), db).
Definition set_announcements (c : collection ObjectId.t) : handler unit :=
  λ db, (Return tt, Database c (teachers_collection db)).

(** The collection methods the router calls, on the module's two globals. *)
Module announcements.
Definition find : handler (list (document ObjectId.t)) :=
  gets (λ db, Collection.find (announcements_collection db)).

Definition find_one (k : ObjectId.t) : handler (option (document ObjectId.t)) :=
  gets (λ db, Collection.find_one k (announcements_collection db)).

(** [insert_one] of a dictionary without [_id]: the driver generates the
    identifier [fresh]; a clash with the unique index raises. *)
Definition insert_one (fresh : ObjectId.t) (d : dict) : handler ObjectId.t :=
  do c <- gets announcements_collection;
  match Collection.insert_one (Doc fresh d) c with
  | Some c' => do _ <- set_announcements c'; ret fresh
  | None => raise DuplicateKeyError
  end.

Definition update_one (k : ObjectId.t) (upd : dict) : handler Z :=
  do c <- gets announcements_collection;
  let '(matched_count, c') := Collection.update_one k upd c in
  do _ <- set_announcements c';
  ret matched_count.

Definition delete_one (k : ObjectId.t) : handler Z :=
  do c <- gets announcements_collection;
  let '(deleted_count, c') := Collection.delete_one k c in
  do _ <- set_announcements c';
  ret deleted_count.
End announcements.

Module teachers.
Definition find_one (k : string) : handler (option (document string)) :=
  gets (λ db, Collection.find_one k (teachers_collection db)).
End teachers.

(** [ObjectId(s)] inside a handler. *)
Definition ObjectId_ (s : string) : handler ObjectId.t :=
  match ObjectId.validate s with
  | Some oid => ret oid
  | None => raise InvalidId
  end.

(** ** Python idioms used by the router *)

(** Truth value of [None] and of a [str]. *)
Definition truthy (v : value) : bool :=
  match v with
  | VNone => false
  | VStr s => negb (String.eqb s "")
  end.

(** [d.get(k)]: [None] when the key is missing. *)
Definition get (d : dict) (k : string) : value := default VNone (d !! k).

(** [v < now] and [v > now] for the values short-circuit evaluation lets
    through: strings, compared code point by code point. *)
Definition lt (v : value) (now : string) : bool :=
  match v with
  | VStr s => String.ltb s now
  | VNone => false
  end.

Definition gt (v : value) (now : string) : bool :=
  match v with
  | VStr s => String.ltb now s
  | VNone => false
  end.

(** [Optional[str]] request fields as stored values. *)
Definition of_optional (o : option string) : value :=
  match o with
  | Some s => VStr s
  | None => VNone
  end.

(** [not teacher] on the result of [find_one]: [None] is false and a found
    document, which holds at least [_id], is true. *)
Definition not_ {K} (teacher : option (document K)) : bool :=
  match teacher with
  | None => true
  | Some _ => false
  end.

(** A fetched document as the dictionary the handler returns, after
    [doc["_id"] = str(doc["_id"])]. *)
Definition to_dict (d : document ObjectId.t) : dict :=
  <["_id" := VStr (ObjectId.str (_id d))]> (body d).

(** ** Request models *)

Module AnnouncementCreate.
Record t : Type := Build {
  message : string;
  start_date : option string;
  expiration_date : string;
  username : string
}.
End AnnouncementCreate.

Module AnnouncementUpdate.
Record t : Type := Build {
  message : option string;
  start_date : option string;
  expiration_date : option string;
  username : string
}.
End AnnouncementUpdate.

(** ** The endpoints *)

(** The first [if] of the loop: expired. *)
Definition expired (now : string) (announcement : document ObjectId.t) : bool :=
  truthy (get (body announcement) "expiration_date")
  && lt (get (body announcement) "expiration_date") now.

(** The second [if] of the loop: not started yet. *)
Definition not_started (now : string) (announcement : document ObjectId.t) : bool :=
  truthy (get (body announcement) "start_date")
  && gt (get (body announcement) "start_date") now.

(** One iteration of the loop on the accumulator [active_announcements]. *)
Definition active_step (now : string) (active_announcements : list dict)
    (announcement : document ObjectId.t) : list dict :=
  if expired now announcement then active_announcements
  else if not_started now announcement then active_announcements
  else active_announcements ++ [to_dict announcement].

(** [GET /announcements/active] *)
Definition get_active_announcements (now : string) : handler (list dict) :=
  do announcements <- announcements.find;
  ret (foldl (active_step now) [] announcements).

(** [GET /announcements/all] *)
Definition get_all_announcements : handler (list dict) :=
  do announcements <- announcements.find;
  ret (map to_dict announcements).

(** [POST /announcements/] *)
Definition create_announcement (now : string) (fresh : ObjectId.t)
    (announcement : AnnouncementCreate.t) : handler dict :=
  do teacher <- teachers.find_one (AnnouncementCreate.username announcement);
  if not_ teacher then raise (HTTPException 401 "Unauthorized") else
  let new_announcement : dict :=
    <["message" := VStr (AnnouncementCreate.message announcement)]>
    (<["start_date" := of_optional (AnnouncementCreate.start_date announcement)]>
    (<["expiration_date" := VStr (AnnouncementCreate.expiration_date announcement)]>
    (<["created_by" := VStr (AnnouncementCreate.username announcement)]>
    (<["created_at" := VStr now]> ∅)))) in
  do inserted_id <- announcements.insert_one fresh new_announcement;
  ret (<["_id" := VStr (ObjectId.str inserted_id)]> new_announcement).

(** The [update_data] dictionary built from the supplied fields. *)
Definition set_if (k : string) (o : option string) (update_data : dict) : dict :=
  match o with
  | Some s => <[k := VStr s]> update_data
  | None => update_data
  end.

Definition build_update_data (announcement : AnnouncementUpdate.t) : dict :=
  set_if "expiration_date" (AnnouncementUpdate.expiration_date announcement)
    (set_if "start_date" (AnnouncementUpdate.start_date announcement)
      (set_if "message" (AnnouncementUpdate.message announcement) ∅)).

(** [PUT /announcements/{announcement_id}] *)
Definition update_announcement (announcement_id : string)
    (announcement : AnnouncementUpdate.t) : handler dict :=
  do teacher <- teachers.find_one (AnnouncementUpdate.username announcement);
  if not_ teacher then raise (HTTPException 401 "Unauthorized") else
  let update_data := build_update_data announcement in
  if bool_decide (update_data = ∅)
  then raise (HTTPException 400 "No fields to update") else
  do oid <- ObjectId_ announcement_id;
  do matched_count <- announcements.update_one oid update_data;
  if matched_count =? 0
  then raise (HTTPException 404 "Announcement not found") else
  do oid' <- ObjectId_ announcement_id;
  do updated <- announcements.find_one oid';
  match updated with
  | Some d => ret (to_dict d)
  | None => raise TypeError
  end.

(** [DELETE /announcements/{announcement_id}] *)
Definition delete_announcement (announcement_id : string) (username : string)
    : handler dict :=
  do teacher <- teachers.find_one username;
  if not_ teacher then raise (HTTPException 401 "Unauthorized") else
  do oid <- ObjectId_ announcement_id;
  do deleted_count <- announcements.delete_one oid;
  if deleted_count =? 0
  then raise (HTTPException 404 "Announcement not found") else
  ret {["message" := VStr "Announcement deleted successfully"]}.


(** ** Vocabulary of the specification *)

(** The author identifier exists in the membership registry. *)
Definition registered (member_id : string) (db : database) : Prop :=
  member_id ∈ Collection.ids (teachers_collection db).

(** The active window as the specification words it: a bound that is absent
    (missing or [None]) does not constrain, a present one is compared with
    [now] inclusively. *)
Definition window_as_specified (now : string) (a : document ObjectId.t) : bool :=
  match get (body a) "expiration_date" with
  | VNone => true
  | VStr e => String.leb now e
  end
  && match get (body a) "start_date" with
     | VNone => true
     | VStr s => String.leb s now
     end.

(** The active window with an empty expiration string counted as absent. *)
Definition in_window (now : string) (a : document ObjectId.t) : bool :=
  match get (body a) "expiration_date" with
  | VNone => true
  | VStr e => String.eqb e "" || String.leb now e
  end
  && match get (body a) "start_date" with
     | VNone => true
     | VStr s => String.leb s now
     end.

(** The value an update request supplies for a field, if any. *)
Definition supplied (a : AnnouncementUpdate.t) (k : string) : option string :=
  if String.eqb k "message" then AnnouncementUpdate.message a
  else if String.eqb k "start_date" then AnnouncementUpdate.start_date a
  else if String.eqb k "expiration_date" then AnnouncementUpdate.expiration_date a
  else None.

(** An update request that supplies none of the three fields. *)
Definition empty_patch (a : AnnouncementUpdate.t) : Prop :=
  AnnouncementUpdate.message a = None
  ∧ AnnouncementUpdate.start_date a = None
  ∧ AnnouncementUpdate.expiration_date a = None.

(** The frame of a successful update: [db'] is [db] with the first record
    [d] carrying the requested identifier replaced, in place, by a record
    [d'] that the handler returns as [r]; [d'] keeps [created_by],
    [created_at] and every field the request does not supply, and keeps
    every field of [d] present. *)
Definition patched_in_place (announcement_id : string)
    (a : AnnouncementUpdate.t) (db db' : database) (r : dict) : Prop :=
  ∃ (pre suf : collection ObjectId.t) (d d' : document ObjectId.t),
    announcements_collection db = pre ++ d :: suf
    ∧ announcements_collection db' = pre ++ d' :: suf
    ∧ teachers_collection db' = teachers_collection db
    ∧ ObjectId.validate announcement_id = Some (_id d)
    ∧ (_id d ∉ Collection.ids pre)
    ∧ _id d' = _id d
    ∧ r = to_dict d'
    ∧ body d' !! "created_by" = body d !! "created_by"
    ∧ body d' !! "created_at" = body d !! "created_at"
    ∧ (∀ k, supplied a k = None → body d' !! k = body d !! k)
    ∧ (∀ k, is_Some (body d !! k) → is_Some (body d' !! k)).

(** The unique index, on the announcements of a database. *)
Definition unique_index (db : database) : Prop :=
  Collection.unique_ids (announcements_collection db).

(** Every stored key is a 12-byte identifier, as the driver generates
    them. *)
Definition well_keyed (db : database) : Prop :=
  Forall (λ d : document ObjectId.t, length (_id d) = 12%nat)
    (announcements_collection db).

(** The confirmation a successful delete returns. *)
Definition deleted_confirmation : dict :=
  {["message" := VStr "Announcement deleted successfully"]}.

(** The records list-active answers with. *)
Definition list_active (now : string) (db : database) : list dict :=
  match (get_active_announcements now db).1 with
  | Return l => l
  | Raise _ => []
  end.

(** The records list-all answers with. *)
Definition list_all (db : database) : list dict :=
  match (get_all_announcements db).1 with
  | Return l => l
  | Raise _ => []
  end.



(** The HTTP status the framework answers with: the code of an
    [HTTPException], 500 for any other exception, 200 on return. *)
Definition response_status {A} (o : outcome A) : Z :=
  match o with
  | Return _ => 200
  | Raise (HTTPException status_code _) => status_code
  | Raise _ => 500
  end.

Definition client_error {A} (o : outcome A) : bool :=
  (400 <=? response_status o) && (response_status o <? 500).

#[global] Instance registered_dec member_id db : Decision (registered member_id db).
Proof. unfold registered. apply _. Defined.

(** ** Sample data

    A registry with the teachers [t1] and [t2], and the announcement of the
    specification's scenario. *)

Definition oid1 : ObjectId.t :=
  [x50; x7f; x1f; x77; xbc; xf8; x6c; xd7; x99; x43; x90; x11]%byte.

Definition oid2 : ObjectId.t :=
  [x50; x7f; x1f; x77; xbc; xf8; x6c; xd7; x99; x43; x90; x12]%byte.

Definition staff : collection string :=
  [Doc "t1" {["display_name" := VStr "Ms. Rodriguez"]};
   Doc "t2" {["display_name" := VStr "Mr. Chen"]}].

Definition exam_friday : AnnouncementCreate.t :=
  AnnouncementCreate.Build "Exam Friday" None "2025-01-10T00:00:00" "t1".

Definition exam_friday_doc : document ObjectId.t :=
  Doc oid1
    (<["message" := VStr "Exam Friday"]>
    (<["start_date" := VNone]>
    (<["expiration_date" := VStr "2025-01-10T00:00:00"]>
    (<["created_by" := VStr "t1"]>
    (<["created_at" := VStr "2025-01-01T08:00:00"]> ∅))))).

Definition empty_db : database := Database [] staff.
Definition school_db : database := Database [exam_friday_doc] staff.

(** A stored announcement whose expiration date is the empty string. *)
Definition undated_doc : document ObjectId.t :=
  Doc oid2
    (<["message" := VStr "Welcome"]>
    (<["start_date" := VNone]>
    (<["expiration_date" := VStr ""]>
    (<["created_by" := VStr "t1"]>
    (<["created_at" := VStr "2025-01-01T08:00:00"]> ∅))))).

Definition undated_db : database := Database [undated_doc] staff.

(** Both announcements, in the order they were created. *)
Definition two_db : database :=
  Database [exam_friday_doc; undated_doc] staff.

Definition rename_only : AnnouncementUpdate.t :=
  AnnouncementUpdate.Build (Some "Exam moved to Monday") None None "t2".

Definition renamed_doc : document ObjectId.t :=
  Doc oid1
    (<["message" := VStr "Exam moved to Monday"]>
    (<["start_date" := VNone]>
    (<["expiration_date" := VStr "2025-01-10T00:00:00"]>
    (<["created_by" := VStr "t1"]>
    (<["created_at" := VStr "2025-01-01T08:00:00"]> ∅))))).

Definition renamed_db : database := Database [renamed_doc] staff.

Definition no_fields : AnnouncementUpdate.t :=
  AnnouncementUpdate.Build None None None "t1".

(** Closed decidable facts by evaluation. *)
Ltac by_compute := apply (bool_decide_unpack _); vm_compute; exact I.

(** ** String order *)

Section string_order.
Implicit Types s t : string.

Lemma ltb_negb_leb s t : String.ltb s t = negb (String.leb t s).
Proof.
  unfold String.ltb, String.leb. rewrite (String.compare_antisym s t).
  by destruct (String.compare t s).
Qed.

Lemma compare_refl s : String.compare s s = Eq.
Proof.
  induction s as [|c s IH]; [done|]. cbn.
  unfold Ascii.compare. by rewrite N.compare_refl.
Qed.

Lemma leb_refl s : String.leb s s = true.
Proof. unfold String.leb. by rewrite compare_refl. Qed.

Lemma leb_empty s : String.leb "" s = true.
Proof. by destruct s. Qed.

Lemma ltb_empty s : String.ltb s "" = false.
Proof. by rewrite ltb_negb_leb, leb_empty. Qed.
End string_order.

(** ** Object identifiers: [str] and the constructor are inverse *)

Section object_id.
Lemma hex_pair (b : byte) (rest : string) :
  ObjectId.fromhex
    (String (ObjectId.hex_char (Byte.to_N b / 16))
       (String (ObjectId.hex_char (Byte.to_N b mod 16)) rest))
  = match ObjectId.fromhex rest with
    | Some bs => Some (b :: bs)
    | None => None
    end.
Proof. by destruct b. Qed.

Lemma fromhex_hexlify (bs : list byte) :
  ObjectId.fromhex (ObjectId.hexlify bs) = Some bs.
Proof.
  induction bs as [|b bs IH]; [done|].
  cbn [ObjectId.hexlify]. by rewrite hex_pair, IH.
Qed.

Lemma str_inj (a b : ObjectId.t) : ObjectId.str a = ObjectId.str b → a = b.
Proof.
  unfold ObjectId.str. intros Heq.
  pose proof (fromhex_hexlify a) as Ha. rewrite Heq, fromhex_hexlify in Ha.
  congruence.
Qed.

Lemma length_hexlify (bs : list byte) :
  String.length (ObjectId.hexlify bs) = (2 * length bs)%nat.
Proof. induction bs as [|b bs IH]; cbn; [done|]. rewrite IH. lia. Qed.

Lemma validate_str (oid : ObjectId.t) :
  length oid = 12%nat → ObjectId.validate (ObjectId.str oid) = Some oid.
Proof.
  intros Hlen. unfold ObjectId.validate, ObjectId.str.
  rewrite length_hexlify, Hlen. cbn. apply fromhex_hexlify.
Qed.
End object_id.

(** ** The collection operations *)

Section collection_facts.
Context {K : Type} `{EqDecision K}.
Implicit Types (c : collection K) (d : document K) (k : K) (upd : dict).

Lemma find_one_Some k c d :
  Collection.find_one k c = Some d → _id d = k ∧ d ∈ c.
Proof.
  induction c as [|x c IH]; cbn; [done|].
  case_decide as Hx.
  - intros [= ->]. split; [done | left].
  - intros Hf. destruct (IH Hf). split; [done | by right].
Qed.

Lemma find_one_None k c :
  Collection.find_one k c = None ↔ k ∉ Collection.ids c.
Proof.
  induction c as [|x c IH]; cbn; [by split; [intros _; apply not_elem_of_nil|]|].
  rewrite not_elem_of_cons. case_decide as Hx.
  - split; [done | by intros [? _]].
  - rewrite IH. split; [by intros ? | by intros [_ ?]].
Qed.

Lemma find_one_is_Some k c :
  is_Some (Collection.find_one k c) ↔ k ∈ Collection.ids c.
Proof.
  rewrite <-not_eq_None_Some, find_one_None.
  split; [apply dec_stable | by intros ? ?].
Qed.

(** The first document with the key, and what surrounds it. *)
Lemma find_one_split k c d :
  Collection.find_one k c = Some d →
  ∃ pre suf, c = pre ++ d :: suf ∧ k ∉ Collection.ids pre.
Proof.
  induction c as [|x c IH]; cbn; [done|].
  case_decide as Hx.
  - intros [= ->]. exists [], c. split; [done | apply not_elem_of_nil].
  - intros Hf. destruct (IH Hf) as (pre & suf & -> & Hpre).
    exists (x :: pre), suf. split; [done|].
    cbn. rewrite not_elem_of_cons. by split; [congruence|].
Qed.

Lemma find_one_middle k pre d suf :
  k ∉ Collection.ids pre → _id d = k →
  Collection.find_one k (pre ++ d :: suf) = Some d.
Proof.
  intros Hpre Hd. induction pre as [|x pre IH]; cbn.
  - by rewrite decide_True.
  - cbn in Hpre. apply not_elem_of_cons in Hpre as [Hx Hpre].
    rewrite decide_False by congruence. auto.
Qed.

Lemma update_one_middle k upd pre d suf :
  k ∉ Collection.ids pre → _id d = k →
  Collection.update_one k upd (pre ++ d :: suf)
  = (1, pre ++ Doc k (upd ∪ body d) :: suf).
Proof.
  intros Hpre Hd. induction pre as [|x pre IH]; cbn.
  - by rewrite decide_True.
  - cbn in Hpre. apply not_elem_of_cons in Hpre as [Hx Hpre].
    rewrite decide_False by congruence. by rewrite IH.
Qed.

Lemma update_one_absent k upd c :
  k ∉ Collection.ids c → Collection.update_one k upd c = (0, c).
Proof.
  induction c as [|x c IH]; cbn; [done|].
  rewrite not_elem_of_cons. intros [Hx Hc].
  rewrite decide_False by congruence. by rewrite IH.
Qed.

Lemma delete_one_middle k pre d suf :
  k ∉ Collection.ids pre → _id d = k →
  Collection.delete_one k (pre ++ d :: suf) = (1, pre ++ suf).
Proof.
  intros Hpre Hd. induction pre as [|x pre IH]; cbn.
  - by rewrite decide_True.
  - cbn in Hpre. apply not_elem_of_cons in Hpre as [Hx Hpre].
    rewrite decide_False by congruence. by rewrite IH.
Qed.

Lemma delete_one_absent k c :
  k ∉ Collection.ids c → Collection.delete_one k c = (0, c).
Proof.
  induction c as [|x c IH]; cbn; [done|].
  rewrite not_elem_of_cons. intros [Hx Hc].
  rewrite decide_False by congruence. by rewrite IH.
Qed.

Lemma ids_app c1 c2 :
  Collection.ids (c1 ++ c2) = Collection.ids c1 ++ Collection.ids c2.
Proof. apply map_app. Qed.

(** The unique index is an invariant of the three writes. *)
Lemma insert_one_unique d c c' :
  Collection.unique_ids c → Collection.insert_one d c = Some c' →
  Collection.unique_ids c'.
Proof.
  unfold Collection.insert_one, Collection.unique_ids.
  destruct (Collection.find_one (_id d) c) eqn:Hf; [done|].
  intros Hc [= <-]. apply find_one_None in Hf.
  rewrite ids_app. apply NoDup_app. split_and!; [done| |].
  - cbn. intros x Hx [->|[]%elem_of_nil]%elem_of_cons. done.
  - cbn. apply NoDup_singleton.
Qed.

Lemma update_one_ids k upd c :
  Collection.ids (Collection.update_one k upd c).2 = Collection.ids c.
Proof.
  induction c as [|x c IH]; cbn; [done|].
  case_decide as Hx; cbn; [by rewrite Hx|].
  destruct (Collection.update_one k upd c) as [n c']. cbn in *. by rewrite IH.
Qed.

Lemma update_one_unique k upd c :
  Collection.unique_ids c →
  Collection.unique_ids (Collection.update_one k upd c).2.
Proof. unfold Collection.unique_ids. by rewrite update_one_ids. Qed.

Lemma delete_one_sublist k c :
  sublist (Collection.ids (Collection.delete_one k c).2) (Collection.ids c).
Proof.
  induction c as [|x c IH]; cbn; [done|].
  case_decide as Hx; cbn; [by apply sublist_cons|].
  destruct (Collection.delete_one k c) as [n c']. cbn in *.
  by apply sublist_skip.
Qed.

Lemma delete_one_unique k c :
  Collection.unique_ids c →
  Collection.unique_ids (Collection.delete_one k c).2.
Proof.
  unfold Collection.unique_ids. intros Hc.
  eapply sublist_NoDup; [done | apply delete_one_sublist].
Qed.

(** With the unique index, a deleted key is gone. *)
Lemma unique_ids_middle k pre d suf :
  Collection.unique_ids (pre ++ d :: suf) → _id d = k →
  k ∉ Collection.ids (pre ++ suf).
Proof.
  unfold Collection.unique_ids. rewrite !ids_app. cbn.
  intros (Hpre & Hdisj & Hsuf)%NoDup_app <-.
  apply NoDup_cons in Hsuf as [Hd Hsuf].
  rewrite elem_of_app. intros [Hin|Hin]; [|done].
  apply (Hdisj _ Hin). left.
Qed.
End collection_facts.

(** ** The active-window filter *)

Section active_window.
Implicit Types (now : string) (a : document ObjectId.t).

(** A record passes both checks of the loop exactly inside the window. *)
Lemma in_window_checks now a :
  in_window now a = negb (expired now a) && negb (not_started now a).
Proof.
  unfold in_window, expired, not_started, truthy, lt, gt.
  destruct (get (body a) "expiration_date") as [|e],
    (get (body a) "start_date") as [|s]; cbn; try done.
  - rewrite ltb_negb_leb, negb_andb, !negb_involutive.
    destruct (String.eqb_spec s "") as [->|]; [by rewrite leb_empty | done].
  - rewrite ltb_negb_leb, negb_andb, !negb_involutive.
    by rewrite andb_true_r.
  - rewrite !ltb_negb_leb, !negb_andb, !negb_involutive.
    destruct (String.eqb_spec s "") as [->|]; [by rewrite leb_empty | done].
Qed.

(** The loop is an order-preserving filter. *)
Lemma active_loop now (l : list (document ObjectId.t)) (acc : list dict) :
  foldl (active_step now) acc l
  = acc ++ map to_dict (List.filter (in_window now) l).
Proof.
  revert acc. induction l as [|a l IH]; intros acc; cbn.
  - by rewrite app_nil_r.
  - rewrite IH, in_window_checks. unfold active_step.
    destruct (expired now a); cbn; [done|].
    destruct (not_started now a); cbn; [done|].
    by rewrite <-app_assoc.
Qed.

Lemma get_active_announcements_run now db :
  get_active_announcements now db
  = (Return (map to_dict (List.filter (in_window now)
                            (announcements_collection db))), db).
Proof.
  unfold get_active_announcements, announcements.find, bind, gets, ret.
  by rewrite active_loop.
Qed.

(** Where no expiration date is the empty string, the window is the one
    the specification words. *)
Lemma window_as_specified_nonempty now a :
  get (body a) "expiration_date" ≠ VStr "" →
  window_as_specified now a = in_window now a.
Proof.
  unfold window_as_specified, in_window. intros Hne.
  destruct (get (body a) "expiration_date") as [|e]; [done|].
  destruct (String.eqb_spec e "") as [->|]; [done | done].
Qed.
End active_window.

(** ** Authorization *)

Section authorization.
Implicit Types (u : string) (db : database).

Lemma authorized u db :
  registered u db →
  not_ (Collection.find_one u (teachers_collection db)) = false.
Proof.
  intros Hu. apply find_one_is_Some in Hu as [d Hd]. by rewrite Hd.
Qed.

Lemma unauthorized u db :
  ¬ registered u db →
  not_ (Collection.find_one u (teachers_collection db)) = true.
Proof. intros Hu. apply find_one_None in Hu. by rewrite Hu. Qed.
End authorization.

(** ** list-active *)

(** C1 (as amended): for every store state and every [now], list-active
    returns, in store order, exactly the records with (expiration_date
    absent, or the empty string, or [>= now]) and (start_date absent or
    [<= now]); both bounds are inclusive. *)
Theorem list_active_window (now : string) (db : database) :
  get_active_announcements now db
  = (Return (map to_dict (List.filter (in_window now)
                            (announcements_collection db))), db)
  ∧ (∀ (oid : ObjectId.t) (m : dict),
       in_window now
         (Doc oid (<["expiration_date" := VStr now]>
                    (<["start_date" := VStr now]> m))) = true
       ∧ in_window now
           (Doc oid (<["expiration_date" := VStr now]>
                      (delete "start_date" m))) = true
       ∧ in_window now
           (Doc oid (<["start_date" := VStr now]>
                      (delete "expiration_date" m))) = true).
Proof.
  split; [apply get_active_announcements_run|].
  intros oid m. unfold in_window, get. cbn [body].
  split_and!; simplify_map_eq; cbn; rewrite ?leb_refl, ?orb_true_r; done.
Qed.

(** C1, the claim as written fails: a stored record whose expiration_date
    is the empty string does not satisfy [expiration_date >= now], yet
    list-active returns it. *)
Lemma empty_expiration_is_listed :
  window_as_specified "2025-01-05T00:00:00" undated_doc = false
  ∧ (get_active_announcements "2025-01-05T00:00:00" undated_db).1
    = Return [to_dict undated_doc].
Proof. split; vm_compute; reflexivity. Qed.

(** C9: the presence test of the filter is a truth test: for every [now],
    a record whose expiration_date is the empty string passes the
    expiration check, one whose start_date is the empty string passes the
    start check, and either record is in the window exactly when the same
    record without that field is. *)
Theorem empty_timestamp_as_absent (now : string) (oid : ObjectId.t) (m : dict) :
  expired now (Doc oid (<["expiration_date" := VStr ""]> m)) = false
  ∧ not_started now (Doc oid (<["start_date" := VStr ""]> m)) = false
  ∧ in_window now (Doc oid (<["expiration_date" := VStr ""]> m))
    = in_window now (Doc oid (delete "expiration_date" m))
  ∧ in_window now (Doc oid (<["start_date" := VStr ""]> m))
    = in_window now (Doc oid (delete "start_date" m)).
Proof.
  unfold expired, not_started, in_window, get. cbn [body].
  split_and!; simplify_map_eq; cbn; rewrite ?leb_empty, ?andb_true_r; done.
Qed.

(** ** create *)

Lemma database_eta (db : database) :
  Database (announcements_collection db) (teachers_collection db) = db.
Proof. by destruct db. Qed.

(** C2: with an author unknown to the registry, create fails with
    Unauthorized (401) and the database is what it was. *)
Theorem create_unknown_author (now : string) (fresh : ObjectId.t)
    (announcement : AnnouncementCreate.t) (db : database) :
  ¬ registered (AnnouncementCreate.username announcement) db →
  create_announcement now fresh announcement db
  = (Raise (HTTPException 401 "Unauthorized"), db).
Proof.
  intros Hu. unfold create_announcement, teachers.find_one, bind, gets.
  by rewrite (unauthorized _ _ Hu).
Qed.

Lemma create_unknown_author_witness :
  ¬ registered "t9" school_db
  ∧ create_announcement "2025-01-02T09:30:00" oid2
      (AnnouncementCreate.Build "Snow day" None "2025-01-03T00:00:00" "t9")
      school_db
    = (Raise (HTTPException 401 "Unauthorized"), school_db).
Proof.
  assert (Hu : ¬ registered "t9" school_db) by by_compute.
  split; [exact Hu|].
  exact (create_unknown_author "2025-01-02T09:30:00" oid2
           (AnnouncementCreate.Build "Snow day" None "2025-01-03T00:00:00" "t9")
           school_db Hu).
Defined.

(** ** update *)

Section update_data.
Implicit Types (a : AnnouncementUpdate.t) (k : string) (m : dict).

Lemma build_update_data_lookup a k :
  build_update_data a !! k = VStr <$> supplied a k.
Proof.
  unfold build_update_data, supplied, set_if. destruct a as [msg s e u]; cbn.
  destruct (String.eqb_spec k "message") as [->|Hm];
    [destruct msg, s, e; by simplify_map_eq|].
  destruct (String.eqb_spec k "start_date") as [->|Hs];
    [destruct msg, s, e; by simplify_map_eq|].
  destruct (String.eqb_spec k "expiration_date") as [->|He];
    [destruct msg, s, e; by simplify_map_eq|].
  destruct msg, s, e; by simplify_map_eq.
Qed.

Lemma build_update_data_empty a :
  build_update_data a = ∅
  ↔ AnnouncementUpdate.message a = None
    ∧ AnnouncementUpdate.start_date a = None
    ∧ AnnouncementUpdate.expiration_date a = None.
Proof.
  split.
  - intros Hempty.
    pose proof (build_update_data_lookup a "message") as Hm.
    pose proof (build_update_data_lookup a "start_date") as Hs.
    pose proof (build_update_data_lookup a "expiration_date") as He.
    rewrite Hempty, lookup_empty in Hm, Hs, He. cbn in *.
    by destruct (AnnouncementUpdate.message a),
      (AnnouncementUpdate.start_date a),
      (AnnouncementUpdate.expiration_date a).
  - unfold build_update_data. by intros (-> & -> & ->).
Qed.

(** [$set]: a supplied field takes the supplied value, any other field
    keeps its value. *)
Lemma patched_lookup a m k :
  (build_update_data a ∪ m) !! k
  = match supplied a k with
    | Some s => Some (VStr s)
    | None => m !! k
    end.
Proof.
  rewrite lookup_union, build_update_data_lookup.
  by destruct (supplied a k), (m !! k).
Qed.
End update_data.

(** The handler, step by step. *)
Lemma update_announcement_run (announcement_id : string)
    (announcement : AnnouncementUpdate.t) (db : database) :
  update_announcement announcement_id announcement db
  = if not_ (Collection.find_one (AnnouncementUpdate.username announcement)
               (teachers_collection db))
    then (Raise (HTTPException 401 "Unauthorized"), db)
    else if bool_decide (build_update_data announcement = ∅)
    then (Raise (HTTPException 400 "No fields to update"), db)
    else match ObjectId.validate announcement_id with
         | None => (Raise InvalidId, db)
         | Some oid =>
             let r := Collection.update_one oid (build_update_data announcement)
                        (announcements_collection db) in
             let db' := Database r.2 (teachers_collection db) in
             if r.1 =? 0
             then (Raise (HTTPException 404 "Announcement not found"), db')
             else match Collection.find_one oid r.2 with
                  | Some d => (Return (to_dict d), db')
                  | None => (Raise TypeError, db')
                  end
         end.
Proof.
  unfold update_announcement, teachers.find_one, announcements.update_one,
    announcements.find_one, ObjectId_, set_announcements, bind, gets, ret, raise.
  destruct (not_ _); [done|]. case_bool_decide; [done|].
  destruct (ObjectId.validate announcement_id) as [oid|]; [|done]. cbn.
  destruct (Collection.update_one _ _ _) as [n c']. cbn.
  destruct (n =? 0); [done|]. cbn. by destruct (Collection.find_one oid c').
Qed.

(** C3: an update by a registered author that supplies none of message,
    start_date and expiration_date fails with BadRequest (400), and the
    database, the targeted record included, is what it was. *)
Theorem update_empty_patch (announcement_id : string)
    (announcement : AnnouncementUpdate.t) (db : database) :
  registered (AnnouncementUpdate.username announcement) db →
  AnnouncementUpdate.message announcement = None →
  AnnouncementUpdate.start_date announcement = None →
  AnnouncementUpdate.expiration_date announcement = None →
  update_announcement announcement_id announcement db
  = (Raise (HTTPException 400 "No fields to update"), db).
Proof.
  intros Hu Hm Hs He. rewrite update_announcement_run, (authorized _ _ Hu).
  by rewrite bool_decide_eq_true_2 by (by apply build_update_data_empty).
Qed.

Lemma update_empty_patch_witness :
  registered "t1" school_db
  ∧ update_announcement (ObjectId.str oid1) no_fields school_db
    = (Raise (HTTPException 400 "No fields to update"), school_db).
Proof.
  assert (Hu : registered "t1" school_db) by by_compute.
  split; [exact Hu|].
  exact (update_empty_patch (ObjectId.str oid1) no_fields school_db
           Hu eq_refl eq_refl eq_refl).
Defined.

Lemma nonempty_patch (a : AnnouncementUpdate.t) :
  ¬ empty_patch a → bool_decide (build_update_data a = ∅) = false.
Proof.
  intros Ha. apply bool_decide_eq_false_2.
  by intros ?%build_update_data_empty.
Qed.

(** C4: an update by a registered author with a non-empty patch and a
    well-formed identifier: if a record matches, the handler answers with
    a dictionary whose [_id] is the string form of the key and whose every
    other field is the supplied value if the request supplies one and the
    record's previous value otherwise, and that is the record as stored
    after the patch; if no record matches it fails with NotFound (404) and
    the database is what it was. *)
Theorem update_patches_record (announcement_id : string) (oid : ObjectId.t)
    (announcement : AnnouncementUpdate.t) (db : database) :
  registered (AnnouncementUpdate.username announcement) db →
  ¬ empty_patch announcement →
  ObjectId.validate announcement_id = Some oid →
  match Collection.find_one oid (announcements_collection db) with
  | Some d =>
      ∃ (r : dict) (d' : document ObjectId.t) (db' : database),
        update_announcement announcement_id announcement db = (Return r, db')
        ∧ r !! "_id" = Some (VStr (ObjectId.str oid))
        ∧ ObjectId.fromhex (ObjectId.str oid) = Some oid
        ∧ (∀ k, k ≠ "_id" →
                r !! k = match supplied announcement k with
                         | Some s => Some (VStr s)
                         | None => body d !! k
                         end)
        ∧ Collection.find_one oid (announcements_collection db') = Some d'
        ∧ _id d' = oid
        ∧ (∀ k, k ≠ "_id" → r !! k = body d' !! k)
        ∧ (∀ k, body d' !! k = match supplied announcement k with
                               | Some s => Some (VStr s)
                               | None => body d !! k
                               end)
  | None =>
      update_announcement announcement_id announcement db
      = (Raise (HTTPException 404 "Announcement not found"), db)
  end.
Proof.
  intros Hu Ha Hv.
  rewrite update_announcement_run, (authorized _ _ Hu), (nonempty_patch _ Ha), Hv.
  destruct (Collection.find_one oid _) as [d|] eqn:Hf.
  - destruct (find_one_Some _ _ _ Hf) as [Hid _].
    destruct (find_one_split _ _ _ Hf) as (pre & suf & Hc & Hpre).
    rewrite Hc, (update_one_middle _ _ _ _ _ Hpre Hid). cbn.
    rewrite (find_one_middle oid pre
               (Doc oid (build_update_data announcement ∪ body d)) suf
               Hpre eq_refl).
    eexists _, (Doc oid (build_update_data announcement ∪ body d)), _.
    split; [done|]. unfold to_dict. cbn [_id body announcements_collection].
    split_and!.
    + apply lookup_insert_eq.
    + apply fromhex_hexlify.
    + intros k Hk. rewrite lookup_insert_ne by done. apply patched_lookup.
    + by apply find_one_middle.
    + done.
    + intros k Hk. by rewrite lookup_insert_ne.
    + intros k. apply patched_lookup.
  - apply find_one_None in Hf.
    rewrite (update_one_absent _ _ _ Hf). cbn. by rewrite database_eta.
Qed.

Lemma update_patches_record_witness :
  (registered "t2" school_db
   ∧ ¬ empty_patch rename_only
   ∧ ObjectId.validate "507f1f77bcf86cd799439011" = Some oid1)
  ∧ match Collection.find_one oid1 (announcements_collection school_db) with
    | Some d =>
        ∃ (r : dict) (d' : document ObjectId.t) (db' : database),
          update_announcement "507f1f77bcf86cd799439011" rename_only school_db
          = (Return r, db')
          ∧ r !! "_id" = Some (VStr (ObjectId.str oid1))
          ∧ ObjectId.fromhex (ObjectId.str oid1) = Some oid1
          ∧ (∀ k, k ≠ "_id" →
                  r !! k = match supplied rename_only k with
                           | Some s => Some (VStr s)
                           | None => body d !! k
                           end)
          ∧ Collection.find_one oid1 (announcements_collection db') = Some d'
          ∧ _id d' = oid1
          ∧ (∀ k, k ≠ "_id" → r !! k = body d' !! k)
          ∧ (∀ k, body d' !! k = match supplied rename_only k with
                                 | Some s => Some (VStr s)
                                 | None => body d !! k
                                 end)
    | None =>
        update_announcement "507f1f77bcf86cd799439011" rename_only school_db
        = (Raise (HTTPException 404 "Announcement not found"), school_db)
    end.
Proof.
  assert (Hu : registered "t2" school_db) by by_compute.
  assert (Ha : ¬ empty_patch rename_only) by (by intros (? & _)).
  assert (Hv : ObjectId.validate "507f1f77bcf86cd799439011" = Some oid1)
    by reflexivity.
  split; [by split_and!|].
  exact (update_patches_record "507f1f77bcf86cd799439011" oid1 rename_only
           school_db Hu Ha Hv).
Defined.

(** C5: a successful update leaves created_by and created_at of the target
    as they were, leaves every field the request does not supply as it was,
    and makes no field of the target absent; the other records and the
    registry are untouched. *)
Theorem update_frame (announcement_id : string)
    (announcement : AnnouncementUpdate.t) (db db' : database) (r : dict) :
  update_announcement announcement_id announcement db = (Return r, db') →
  patched_in_place announcement_id announcement db db' r.
Proof.
  rewrite update_announcement_run. destruct (not_ _); [done|].
  case_bool_decide; [done|].
  destruct (ObjectId.validate announcement_id) as [oid|] eqn:Hv; [|done].
  destruct (Collection.find_one oid (announcements_collection db))
    as [d|] eqn:Hf; cycle 1.
  { apply find_one_None in Hf. by rewrite (update_one_absent _ _ _ Hf). }
  destruct (find_one_Some _ _ _ Hf) as [Hid _].
  destruct (find_one_split _ _ _ Hf) as (pre & suf & Hc & Hpre).
  rewrite Hc, (update_one_middle _ _ _ _ _ Hpre Hid). cbn.
  rewrite (find_one_middle oid pre
             (Doc oid (build_update_data announcement ∪ body d)) suf
             Hpre eq_refl).
  intros [= <- <-].
  exists pre, suf, d, (Doc oid (build_update_data announcement ∪ body d)).
  subst oid. cbn. split_and!; try done.
  - rewrite patched_lookup. by destruct announcement.
  - rewrite patched_lookup. by destruct announcement.
  - intros k Hk. by rewrite patched_lookup, Hk.
  - intros k Hk. rewrite patched_lookup. by destruct (supplied announcement k).
Qed.

Lemma update_frame_witness :
  update_announcement "507f1f77bcf86cd799439011" rename_only school_db
  = (Return (to_dict renamed_doc), renamed_db)
  ∧ patched_in_place "507f1f77bcf86cd799439011" rename_only
      school_db renamed_db (to_dict renamed_doc).
Proof.
  assert (Hrun : update_announcement "507f1f77bcf86cd799439011" rename_only
                   school_db = (Return (to_dict renamed_doc), renamed_db))
    by (vm_compute; reflexivity).
  split; [exact Hrun|].
  exact (update_frame "507f1f77bcf86cd799439011" rename_only school_db
           renamed_db (to_dict renamed_doc) Hrun).
Defined.

(** ** delete *)

Lemma delete_announcement_run (announcement_id username : string) (db : database) :
  delete_announcement announcement_id username db
  = if not_ (Collection.find_one username (teachers_collection db))
    then (Raise (HTTPException 401 "Unauthorized"), db)
    else match ObjectId.validate announcement_id with
         | None => (Raise InvalidId, db)
         | Some oid =>
             let r := Collection.delete_one oid (announcements_collection db) in
             let db' := Database r.2 (teachers_collection db) in
             if r.1 =? 0
             then (Raise (HTTPException 404 "Announcement not found"), db')
             else (Return deleted_confirmation, db')
         end.
Proof.
  unfold delete_announcement, teachers.find_one, announcements.delete_one,
    ObjectId_, set_announcements, bind, gets, ret, raise.
  destruct (not_ _); [done|].
  destruct (ObjectId.validate announcement_id) as [oid|]; [|done]. cbn.
  destruct (Collection.delete_one _ _) as [n c']. cbn.
  by destruct (n =? 0).
Qed.

(** C6: for a registered author and a well-formed identifier, on a store
    with unique identifiers: if a record matches, the first delete returns
    the confirmation and a second delete of the same identifier fails with
    NotFound (404); if no record matches, the delete fails with NotFound
    and the database is what it was. *)
Theorem delete_twice (announcement_id username : string) (oid : ObjectId.t)
    (db : database) :
  registered username db →
  ObjectId.validate announcement_id = Some oid →
  Collection.unique_ids (announcements_collection db) →
  match Collection.find_one oid (announcements_collection db) with
  | Some d =>
      ∃ db1 : database,
        delete_announcement announcement_id username db
        = (Return deleted_confirmation, db1)
        ∧ delete_announcement announcement_id username db1
          = (Raise (HTTPException 404 "Announcement not found"), db1)
  | None =>
      delete_announcement announcement_id username db
      = (Raise (HTTPException 404 "Announcement not found"), db)
  end.
Proof.
  intros Hu Hv Huniq.
  destruct (Collection.find_one oid _) as [d|] eqn:Hf.
  - destruct (find_one_Some _ _ _ Hf) as [Hid _].
    destruct (find_one_split _ _ _ Hf) as (pre & suf & Hc & Hpre).
    rewrite Hc in Huniq. pose proof (unique_ids_middle _ _ _ _ Huniq Hid) as Hgone.
    exists (Database (pre ++ suf) (teachers_collection db)). split.
    + rewrite delete_announcement_run, (authorized _ _ Hu), Hv, Hc.
      by rewrite (delete_one_middle _ _ _ _ Hpre Hid).
    + rewrite delete_announcement_run. cbn [teachers_collection announcements_collection].
      by rewrite (authorized _ _ Hu), Hv, (delete_one_absent _ _ Hgone).
  - apply find_one_None in Hf.
    rewrite delete_announcement_run, (authorized _ _ Hu), Hv.
    rewrite (delete_one_absent _ _ Hf). cbn. by rewrite database_eta.
Qed.

Lemma delete_twice_witness :
  (registered "t2" school_db
   ∧ ObjectId.validate "507f1f77bcf86cd799439011" = Some oid1
   ∧ Collection.unique_ids (announcements_collection school_db))
  ∧ match Collection.find_one oid1 (announcements_collection school_db) with
    | Some d =>
        ∃ db1 : database,
          delete_announcement "507f1f77bcf86cd799439011" "t2" school_db
          = (Return deleted_confirmation, db1)
          ∧ delete_announcement "507f1f77bcf86cd799439011" "t2" db1
            = (Raise (HTTPException 404 "Announcement not found"), db1)
    | None =>
        delete_announcement "507f1f77bcf86cd799439011" "t2" school_db
        = (Raise (HTTPException 404 "Announcement not found"), school_db)
    end.
Proof.
  assert (Hu : registered "t2" school_db) by by_compute.
  assert (Hv : ObjectId.validate "507f1f77bcf86cd799439011" = Some oid1)
    by reflexivity.
  assert (Huniq : Collection.unique_ids (announcements_collection school_db))
    by by_compute.
  split; [by split_and!|].
  exact (delete_twice "507f1f77bcf86cd799439011" "t2" oid1 school_db
           Hu Hv Huniq).
Defined.

(** ** Malformed identifiers *)

(** C7 (as amended): for a registered author and an identifier the store's
    key constructor rejects, delete, and update with a non-empty patch,
    raise the constructor's [InvalidId], which no handler turns into an
    HTTP error: the caller gets the framework's internal error (500), not
    a client error; the database is what it was. *)
Theorem malformed_identifier (announcement_id username : string)
    (announcement : AnnouncementUpdate.t) (db : database) :
  registered username db →
  registered (AnnouncementUpdate.username announcement) db →
  ¬ empty_patch announcement →
  ObjectId.validate announcement_id = None →
  delete_announcement announcement_id username db = (Raise InvalidId, db)
  ∧ update_announcement announcement_id announcement db = (Raise InvalidId, db)
  ∧ response_status (@Raise dict InvalidId) = 500
  ∧ client_error (@Raise dict InvalidId) = false.
Proof.
  intros Hu Hu' Ha Hv. split_and!; [| |done|done].
  - by rewrite delete_announcement_run, (authorized _ _ Hu), Hv.
  - by rewrite update_announcement_run, (authorized _ _ Hu'),
      (nonempty_patch _ Ha), Hv.
Qed.

Lemma malformed_identifier_witness :
  (registered "t1" school_db
   ∧ registered "t2" school_db
   ∧ ¬ empty_patch rename_only
   ∧ ObjectId.validate "not-an-object-id" = None)
  ∧ delete_announcement "not-an-object-id" "t1" school_db
    = (Raise InvalidId, school_db)
  ∧ update_announcement "not-an-object-id" rename_only school_db
    = (Raise InvalidId, school_db)
  ∧ response_status (@Raise dict InvalidId) = 500
  ∧ client_error (@Raise dict InvalidId) = false.
Proof.
  assert (Hu : registered "t1" school_db) by by_compute.
  assert (Hu' : registered "t2" school_db) by by_compute.
  assert (Ha : ¬ empty_patch rename_only) by (by intros (? & _)).
  assert (Hv : ObjectId.validate "not-an-object-id" = None) by reflexivity.
  split; [by split_and!|].
  exact (malformed_identifier "not-an-object-id" "t1" rename_only school_db
           Hu Hu' Ha Hv).
Defined.

(** C7, the claim as written fails: a registered author deleting, or
    updating, with an identifier that cannot be parsed does not get a
    client error. *)
Lemma unparsable_id_no_client_error :
  registered "t1" school_db
  ∧ registered (AnnouncementUpdate.username rename_only) school_db
  ∧ ObjectId.validate "not-an-object-id" = None
  ∧ client_error
      (delete_announcement "not-an-object-id" "t1" school_db).1 = false
  ∧ client_error
      (update_announcement "not-an-object-id" rename_only school_db).1 = false.
Proof. split_and!; [by_compute | by_compute | done | done | done]. Qed.

(** ** create, then list-active *)

Section create_then_list.
Implicit Types (now t : string) (fresh : ObjectId.t) (db : database).

Lemma to_dict_id (d : document ObjectId.t) :
  to_dict d !! "_id" = Some (VStr (ObjectId.str (_id d))).
Proof. apply lookup_insert_eq. Qed.

(** Rendered records are told apart by their identifiers. *)
Lemma to_dict_elem_of (d : document ObjectId.t) (c : collection ObjectId.t) :
  to_dict d ∈ map to_dict c → _id d ∈ Collection.ids c.
Proof.
  intros (x & Hx & Hin)%list_elem_of_fmap.
  assert (_id d = _id x) as ->.
  { apply str_inj. pose proof (to_dict_id d) as Hd.
    rewrite Hx, to_dict_id in Hd. congruence. }
  unfold Collection.ids. apply list_elem_of_fmap. eauto.
Qed.

Lemma filter_ids {K} (f : document K → bool) (c : collection K) (k : K) :
  k ∈ Collection.ids (List.filter f c) → k ∈ Collection.ids c.
Proof.
  unfold Collection.ids. intros (x & -> & Hin)%list_elem_of_fmap.
  apply list_elem_of_fmap. exists x. split; [done|].
  apply list_elem_of_In. apply list_elem_of_In, filter_In in Hin. tauto.
Qed.

Lemma list_active_snoc t (c : collection ObjectId.t) (d : document ObjectId.t)
    (staff : collection string) :
  _id d ∉ Collection.ids c →
  to_dict d ∈ list_active t (Database (c ++ [d]) staff) ↔ in_window t d = true.
Proof.
  intros Hfresh. unfold list_active. rewrite get_active_announcements_run.
  cbn. rewrite List.filter_app, map_app, elem_of_app. cbn.
  split.
  - intros [Hold|Hnew].
    + destruct Hfresh. by eapply filter_ids, to_dict_elem_of.
    + destruct (in_window t d); [done | by apply elem_of_nil in Hnew].
  - intros ->. right. left.
Qed.

Lemma create_announcement_run now fresh (a : AnnouncementCreate.t) db :
  registered (AnnouncementCreate.username a) db →
  fresh ∉ Collection.ids (announcements_collection db) →
  let new_announcement : dict :=
    <["message" := VStr (AnnouncementCreate.message a)]>
    (<["start_date" := of_optional (AnnouncementCreate.start_date a)]>
    (<["expiration_date" := VStr (AnnouncementCreate.expiration_date a)]>
    (<["created_by" := VStr (AnnouncementCreate.username a)]>
    (<["created_at" := VStr now]> ∅)))) in
  create_announcement now fresh a db
  = (Return (to_dict (Doc fresh new_announcement)),
     Database (announcements_collection db ++ [Doc fresh new_announcement])
       (teachers_collection db)).
Proof.
  intros Hu Hfresh. cbn zeta.
  unfold create_announcement, teachers.find_one, announcements.insert_one,
    Collection.insert_one, set_announcements, bind, gets, ret, raise.
  rewrite (authorized _ _ Hu). cbn [_id].
  apply find_one_None in Hfresh. by rewrite Hfresh.
Qed.
End create_then_list.

(** C8 (as amended): for a registered author (and a generated identifier
    that is new to the store), create returns the persisted record, with
    created_by the author and the new identifier; that record is in
    list-active at [t] exactly when (its expiration_date is the empty
    string or is [>= t]) and (its start_date is absent or is [<= t]); with
    start_date absent and expiration_date "2025-01-10T00:00:00" it is
    listed at "2025-01-05T00:00:00" and not listed at
    "2025-01-11T00:00:00". *)
Theorem create_then_list_active (now : string) (fresh : ObjectId.t)
    (message username : string) (db : database) :
  registered username db →
  fresh ∉ Collection.ids (announcements_collection db) →
  (∀ (start_date : option string) (expiration_date : string),
     ∃ (r : dict) (d : document ObjectId.t) (db' : database),
       create_announcement now fresh
         (AnnouncementCreate.Build message start_date expiration_date username) db
       = (Return r, db')
       ∧ announcements_collection db' = announcements_collection db ++ [d]
       ∧ _id d = fresh
       ∧ (∀ k, k ≠ "_id" → r !! k = body d !! k)
       ∧ r !! "_id" = Some (VStr (ObjectId.str fresh))
       ∧ ObjectId.fromhex (ObjectId.str fresh) = Some fresh
       ∧ r !! "created_by" = Some (VStr username)
       ∧ r !! "created_at" = Some (VStr now)
       ∧ r !! "message" = Some (VStr message)
       ∧ r !! "start_date" = Some match start_date with
                                  | Some s => VStr s
                                  | None => VNone
                                  end
       ∧ r !! "expiration_date" = Some (VStr expiration_date)
       ∧ ∀ t, r ∈ list_active t db'
              ↔ (String.eqb expiration_date "" || String.leb t expiration_date)
                && match start_date with
                   | Some s => String.leb s t
                   | None => true
                   end = true)
  ∧ (∃ (r : dict) (db' : database),
       create_announcement now fresh
         (AnnouncementCreate.Build message None "2025-01-10T00:00:00" username) db
       = (Return r, db')
       ∧ r ∈ list_active "2025-01-05T00:00:00" db'
       ∧ r ∉ list_active "2025-01-11T00:00:00" db').
Proof.
  intros Hu Hfresh. split.
  - intros start_date expiration_date. eexists _, _, _.
    split; [by apply create_announcement_run|].
    split_and!; try done; try apply fromhex_hexlify;
      try (unfold to_dict; cbn; by simplify_map_eq).
    + intros k Hk. unfold to_dict. cbn. by rewrite lookup_insert_ne.
    + intros t. rewrite list_active_snoc by done.
      unfold in_window, get. cbn. simplify_map_eq.
      by destruct start_date.
  - eexists _, _. split; [by apply create_announcement_run|].
    rewrite !list_active_snoc by done.
    unfold in_window, get. cbn. simplify_map_eq. done.
Qed.

(** C8, the claim as written fails: a registered author creates a record
    whose expiration_date is the empty string; at
    "2025-01-05T00:00:00" the active window the specification words does
    not hold of it, yet list-active answers with it. *)
Lemma created_undated_is_listed :
  registered "t1" empty_db
  ∧ (oid2 ∉ Collection.ids (announcements_collection empty_db))
  ∧ create_announcement "2025-01-01T08:00:00" oid2
      (AnnouncementCreate.Build "Welcome" None "" "t1") empty_db
    = (Return (to_dict undated_doc), undated_db)
  ∧ window_as_specified "2025-01-05T00:00:00" undated_doc = false
  ∧ list_active "2025-01-05T00:00:00" undated_db = [to_dict undated_doc].
Proof.
  split_and!; [by_compute | by_compute | vm_compute; reflexivity ..].
Qed.

Lemma create_then_list_active_witness :
  (registered "t1" school_db
   ∧ (oid2 ∉ Collection.ids (announcements_collection school_db)))
  ∧ (∀ (start_date : option string) (expiration_date : string),
       ∃ (r : dict) (d : document ObjectId.t) (db' : database),
         create_announcement "2025-01-02T09:30:00" oid2
           (AnnouncementCreate.Build "Science fair" start_date expiration_date
              "t1") school_db
         = (Return r, db')
         ∧ announcements_collection db'
           = announcements_collection school_db ++ [d]
         ∧ _id d = oid2
         ∧ (∀ k, k ≠ "_id" → r !! k = body d !! k)
         ∧ r !! "_id" = Some (VStr (ObjectId.str oid2))
         ∧ ObjectId.fromhex (ObjectId.str oid2) = Some oid2
         ∧ r !! "created_by" = Some (VStr "t1")
         ∧ r !! "created_at" = Some (VStr "2025-01-02T09:30:00")
         ∧ r !! "message" = Some (VStr "Science fair")
         ∧ r !! "start_date" = Some match start_date with
                                    | Some s => VStr s
                                    | None => VNone
                                    end
         ∧ r !! "expiration_date" = Some (VStr expiration_date)
         ∧ ∀ t, r ∈ list_active t db'
                ↔ (String.eqb expiration_date "" || String.leb t expiration_date)
                  && match start_date with
                     | Some s => String.leb s t
                     | None => true
                     end = true)
  ∧ (∃ (r : dict) (db' : database),
       create_announcement "2025-01-02T09:30:00" oid2
         (AnnouncementCreate.Build "Science fair" None "2025-01-10T00:00:00"
            "t1") school_db
       = (Return r, db')
       ∧ r ∈ list_active "2025-01-05T00:00:00" db'
       ∧ r ∉ list_active "2025-01-11T00:00:00" db').
Proof.
  assert (Hu : registered "t1" school_db) by by_compute.
  assert (Hfresh : oid2 ∉ Collection.ids (announcements_collection school_db))
    by by_compute.
  split; [by split|].
  exact (create_then_list_active "2025-01-02T09:30:00" oid2 "Science fair"
           "t1" school_db Hu Hfresh).
Defined.

(** ** Ownership *)

(** Among registered members, the outcome does not depend on who asks. *)
Lemma update_any_member (announcement_id u u' : string)
    (message start_date expiration_date : option string) (db : database) :
  registered u db → registered u' db →
  update_announcement announcement_id
    (AnnouncementUpdate.Build message start_date expiration_date u) db
  = update_announcement announcement_id
      (AnnouncementUpdate.Build message start_date expiration_date u') db.
Proof.
  intros Hu Hu'. rewrite !update_announcement_run. cbn [AnnouncementUpdate.username].
  by rewrite (authorized _ _ Hu), (authorized _ _ Hu').
Qed.

Lemma delete_any_member (announcement_id u u' : string) (db : database) :
  registered u db → registered u' db →
  delete_announcement announcement_id u db
  = delete_announcement announcement_id u' db.
Proof.
  intros Hu Hu'. rewrite !delete_announcement_run.
  by rewrite (authorized _ _ Hu), (authorized _ _ Hu').
Qed.

(** C10: update and delete never look at created_by: on the identifier of
    a record created by [creator], a different registered member gets the
    same successful outcome, result and database, as the creator. *)
Theorem no_ownership_check (announcement_id member creator : string)
    (message start_date expiration_date : option string)
    (d : document ObjectId.t) (db : database) :
  registered member db →
  registered creator db →
  member ≠ creator →
  d ∈ announcements_collection db →
  body d !! "created_by" = Some (VStr creator) →
  ObjectId.validate announcement_id = Some (_id d) →
  ¬ (message = None ∧ start_date = None ∧ expiration_date = None) →
  (∃ (r : dict) (db' : database),
     update_announcement announcement_id
       (AnnouncementUpdate.Build message start_date expiration_date member) db
     = (Return r, db')
     ∧ update_announcement announcement_id
         (AnnouncementUpdate.Build message start_date expiration_date creator) db
       = (Return r, db'))
  ∧ (∃ db' : database,
       delete_announcement announcement_id member db
       = (Return deleted_confirmation, db')
       ∧ delete_announcement announcement_id creator db
         = (Return deleted_confirmation, db')).
Proof.
  intros Hm Hc _ Hd _ Hv Ha.
  assert (is_Some (Collection.find_one (_id d) (announcements_collection db)))
    as [x Hx].
  { apply find_one_is_Some, list_elem_of_fmap. eauto. }
  destruct (find_one_Some _ _ _ Hx) as [Hid _].
  destruct (find_one_split _ _ _ Hx) as (pre & suf & Hsplit & Hpre).
  split.
  - rewrite <-(update_any_member _ member creator) by done.
    rewrite update_announcement_run. cbn [AnnouncementUpdate.username].
    rewrite (authorized _ _ Hm), nonempty_patch by done.
    rewrite Hv, Hsplit, (update_one_middle _ _ _ _ _ Hpre Hid). cbn.
    rewrite (find_one_middle (_id d) pre (Doc (_id d) _) suf Hpre eq_refl).
    by eexists _, _.
  - rewrite <-(delete_any_member _ member creator) by done.
    rewrite delete_announcement_run, (authorized _ _ Hm).
    rewrite Hv, Hsplit, (delete_one_middle _ _ _ _ Hpre Hid). cbn.
    by eexists.
Qed.

Lemma no_ownership_check_witness :
  (registered "t2" school_db
   ∧ registered "t1" school_db
   ∧ "t2" ≠ "t1"
   ∧ exam_friday_doc ∈ announcements_collection school_db
   ∧ body exam_friday_doc !! "created_by" = Some (VStr "t1")
   ∧ ObjectId.validate "507f1f77bcf86cd799439011" = Some (_id exam_friday_doc)
   ∧ ¬ (Some "Exam moved to Monday" = None
        ∧ @None string = None ∧ @None string = None))
  ∧ (∃ (r : dict) (db' : database),
       update_announcement "507f1f77bcf86cd799439011"
         (AnnouncementUpdate.Build (Some "Exam moved to Monday") None None "t2")
         school_db
       = (Return r, db')
       ∧ update_announcement "507f1f77bcf86cd799439011"
           (AnnouncementUpdate.Build (Some "Exam moved to Monday") None None "t1")
           school_db
         = (Return r, db'))
  ∧ (∃ db' : database,
       delete_announcement "507f1f77bcf86cd799439011" "t2" school_db
       = (Return deleted_confirmation, db')
       ∧ delete_announcement "507f1f77bcf86cd799439011" "t1" school_db
         = (Return deleted_confirmation, db')).
Proof.
  assert (Hm : registered "t2" school_db) by by_compute.
  assert (Hc : registered "t1" school_db) by by_compute.
  assert (Hne : "t2" ≠ "t1") by by_compute.
  assert (Hd : exam_friday_doc ∈ announcements_collection school_db)
    by (vm_compute; left).
  assert (Hby : body exam_friday_doc !! "created_by" = Some (VStr "t1"))
    by reflexivity.
  assert (Hv : ObjectId.validate "507f1f77bcf86cd799439011"
               = Some (_id exam_friday_doc)) by reflexivity.
  assert (Ha : ¬ (Some "Exam moved to Monday" = None
                  ∧ @None string = None ∧ @None string = None))
    by (by intros (? & _)).
  split; [by split_and!|].
  exact (no_ownership_check "507f1f77bcf86cd799439011" "t2" "t1"
           (Some "Exam moved to Monday") None None exam_friday_doc school_db
           Hm Hc Hne Hd Hby Hv Ha).
Defined.

(** ** The unique index is kept by every handler *)

Section unique_index.
Implicit Types db : database.

Lemma create_keeps_unique_index now fresh a db :
  unique_index db → unique_index (create_announcement now fresh a db).2.
Proof.
  unfold unique_index, create_announcement, teachers.find_one,
    announcements.insert_one, set_announcements, bind, gets, ret, raise.
  intros Hdb. destruct (not_ _); [done|].
  destruct (Collection.insert_one _ _) as [c'|] eqn:Hins; [|done].
  cbn. by eapply insert_one_unique.
Qed.

Lemma update_keeps_unique_index announcement_id a db :
  unique_index db → unique_index (update_announcement announcement_id a db).2.
Proof.
  unfold unique_index. intros Hdb. rewrite update_announcement_run.
  destruct (not_ _); [done|]. case_bool_decide; [done|].
  destruct (ObjectId.validate announcement_id) as [oid|]; [|done]. cbn zeta.
  pose proof (update_one_unique oid (build_update_data a) _ Hdb).
  destruct (_ =? 0); [done|]. by destruct (Collection.find_one _ _).
Qed.

Lemma delete_keeps_unique_index announcement_id username db :
  unique_index db →
  unique_index (delete_announcement announcement_id username db).2.
Proof.
  unfold unique_index. intros Hdb. rewrite delete_announcement_run.
  destruct (not_ _); [done|].
  destruct (ObjectId.validate announcement_id) as [oid|]; [|done]. cbn zeta.
  pose proof (delete_one_unique oid _ Hdb). by destruct (_ =? 0).
Qed.

Lemma list_keeps_database now db :
  (get_active_announcements now db).2 = db
  ∧ (get_all_announcements db).2 = db.
Proof. done. Qed.
End unique_index.

(** ** The scenario of the specification, evaluated *)

Example str_of_oid1 : ObjectId.str oid1 = "507f1f77bcf86cd799439011".
Proof. reflexivity. Qed.

Example upper_case_identifier :
  ObjectId.validate "507F1F77BCF86CD799439011" = Some oid1.
Proof. reflexivity. Qed.

Example short_identifier : ObjectId.validate "507f1f77" = None.
Proof. reflexivity. Qed.

Example created_exam_friday :
  create_announcement "2025-01-01T08:00:00" oid1 exam_friday empty_db
  = (Return (to_dict exam_friday_doc), school_db).
Proof. vm_compute. reflexivity. Qed.

Example listed_before_expiration :
  list_active "2025-01-05T00:00:00" school_db = [to_dict exam_friday_doc].
Proof. vm_compute. reflexivity. Qed.

Example listed_at_expiration :
  list_active "2025-01-10T00:00:00" school_db = [to_dict exam_friday_doc].
Proof. vm_compute. reflexivity. Qed.

Example unlisted_after_expiration :
  list_active "2025-01-11T00:00:00" school_db = [].
Proof. vm_compute. reflexivity. Qed.

Example renamed_by_another_teacher :
  update_announcement "507f1f77bcf86cd799439011" rename_only school_db
  = (Return (to_dict renamed_doc), renamed_db).
Proof. vm_compute. reflexivity. Qed.

Example update_of_unknown_record :
  update_announcement "507f1f77bcf86cd799439012" rename_only school_db
  = (Raise (HTTPException 404 "Announcement not found"), school_db).
Proof. vm_compute. reflexivity. Qed.

Example delete_of_unknown_record :
  delete_announcement "507f1f77bcf86cd799439012" "t1" school_db
  = (Raise (HTTPException 404 "Announcement not found"), school_db).
Proof. vm_compute. reflexivity. Qed.

Example delete_by_stranger :
  delete_announcement "507f1f77bcf86cd799439011" "mallory" school_db
  = (Raise (HTTPException 401 "Unauthorized"), school_db).
Proof. vm_compute. reflexivity. Qed.

(** ** Further properties of the handlers *)

Section order_facts.
Implicit Types s t u : string.

Lemma leb_trans s t u :
  String.leb s t = true → String.leb t u = true → String.leb s u = true.
Proof.
  revert t u. induction s as [|a s IH]; intros [|b t] [|c u]; try done.
  specialize (IH t u). unfold String.leb in *. cbn. unfold Ascii.compare.
  destruct (N.compare_spec (N_of_ascii a) (N_of_ascii b)) as [Hab|Hab|Hab];
    [| |done];
    destruct (N.compare_spec (N_of_ascii b) (N_of_ascii c)) as [Hbc|Hbc|Hbc];
    try done.
  - rewrite Hab, Hbc, N.compare_refl. apply IH.
  - intros _ _. rewrite Hab. by rewrite (proj2 (N.compare_lt_iff _ _) Hbc).
  - intros _ _. rewrite <-Hbc. by rewrite (proj2 (N.compare_lt_iff _ _) Hab).
  - intros _ _.
    by rewrite (proj2 (N.compare_lt_iff _ _) (N.lt_trans _ _ _ Hab Hbc)).
Qed.

Lemma filter_sublist {A} (f : A → bool) (l : list A) :
  sublist (List.filter f l) l.
Proof.
  induction l as [|x l IH]; cbn; [done|].
  destruct (f x); [by apply sublist_skip | by apply sublist_cons].
Qed.
End order_facts.

(** X1: list-all answers with every stored record, in store order, and
    list-active with a sublist of that answer (same records, same relative
    order); neither changes the database. *)
Theorem active_sublist_of_all (now : string) (db : database) :
  get_all_announcements db
  = (Return (map to_dict (announcements_collection db)), db)
  ∧ (get_active_announcements now db).2 = db
  ∧ sublist (list_active now db) (list_all db)
  ∧ length (list_all db) = length (announcements_collection db).
Proof.
  unfold list_active, list_all. rewrite get_active_announcements_run.
  unfold get_all_announcements, announcements.find, bind, gets, ret. cbn.
  split_and!; [done|done| |by rewrite length_map].
  apply (fmap_sublist to_dict), filter_sublist.
Qed.

(** X2: authorization comes first in update and delete: for an author
    unknown to the registry both fail with Unauthorized (401) and leave the
    database as it was, whatever the identifier (parsable or not) and
    whatever the patch (empty or not). *)
Theorem unauthorized_first (announcement_id username : string)
    (message start_date expiration_date : option string) (db : database) :
  ¬ registered username db →
  update_announcement announcement_id
    (AnnouncementUpdate.Build message start_date expiration_date username) db
  = (Raise (HTTPException 401 "Unauthorized"), db)
  ∧ delete_announcement announcement_id username db
    = (Raise (HTTPException 401 "Unauthorized"), db).
Proof.
  intros Hu. rewrite update_announcement_run, delete_announcement_run.
  cbn [AnnouncementUpdate.username]. by rewrite (unauthorized _ _ Hu).
Qed.

Lemma unauthorized_first_witness :
  ¬ registered "mallory" school_db
  ∧ update_announcement "not-an-object-id"
      (AnnouncementUpdate.Build None None None "mallory") school_db
    = (Raise (HTTPException 401 "Unauthorized"), school_db)
  ∧ delete_announcement "not-an-object-id" "mallory" school_db
    = (Raise (HTTPException 401 "Unauthorized"), school_db).
Proof.
  assert (Hu : ¬ registered "mallory" school_db) by by_compute.
  split; [exact Hu|].
  exact (unauthorized_first "not-an-object-id" "mallory" None None None
           school_db Hu).
Defined.




(** X4: the unique index on the identifiers is an invariant of the three
    writing handlers, whatever their inputs and outcome. *)
Theorem handlers_keep_unique_index (now announcement_id username : string)
    (fresh : ObjectId.t) (new_announcement : AnnouncementCreate.t)
    (announcement : AnnouncementUpdate.t) (db : database) :
  unique_index db →
  unique_index (create_announcement now fresh new_announcement db).2
  ∧ unique_index (update_announcement announcement_id announcement db).2
  ∧ unique_index (delete_announcement announcement_id username db).2.
Proof.
  intros Hdb. split_and!.
  - by apply create_keeps_unique_index.
  - by apply update_keeps_unique_index.
  - by apply delete_keeps_unique_index.
Qed.

Lemma handlers_keep_unique_index_witness :
  unique_index school_db
  ∧ unique_index
      (create_announcement "2025-01-02T09:30:00" oid2 exam_friday school_db).2
  ∧ unique_index
      (update_announcement "507f1f77bcf86cd799439011" rename_only school_db).2
  ∧ unique_index
      (delete_announcement "507f1f77bcf86cd799439011" "t1" school_db).2.
Proof.
  assert (Hdb : unique_index school_db) by by_compute.
  split; [exact Hdb|].
  exact (handlers_keep_unique_index "2025-01-02T09:30:00"
           "507f1f77bcf86cd799439011" "t1" oid2 exam_friday rename_only
           school_db Hdb).
Defined.

(** X5: no handler writes the registry: after any call, successful or
    not, the teachers collection is what it was. *)
Theorem registry_never_written (now announcement_id username : string)
    (fresh : ObjectId.t) (new_announcement : AnnouncementCreate.t)
    (announcement : AnnouncementUpdate.t) (db : database) :
  teachers_collection (get_active_announcements now db).2
  = teachers_collection db
  ∧ teachers_collection (get_all_announcements db).2 = teachers_collection db
  ∧ teachers_collection (create_announcement now fresh new_announcement db).2
    = teachers_collection db
  ∧ teachers_collection (update_announcement announcement_id announcement db).2
    = teachers_collection db
  ∧ teachers_collection (delete_announcement announcement_id username db).2
    = teachers_collection db.
Proof.
  split_and!; [done|done| | |].
  - unfold create_announcement, teachers.find_one, announcements.insert_one,
      set_announcements, bind, gets, ret, raise.
    destruct (not_ _); [done|]. by destruct (Collection.insert_one _ _).
  - rewrite update_announcement_run. destruct (not_ _); [done|].
    case_bool_decide; [done|].
    destruct (ObjectId.validate announcement_id) as [oid|]; [|done]. cbn zeta.
    destruct (_ =? 0); [done|]. by destruct (Collection.find_one _ _).
  - rewrite delete_announcement_run. destruct (not_ _); [done|].
    destruct (ObjectId.validate announcement_id) as [oid|]; [|done]. cbn zeta.
    by destruct (_ =? 0).
Qed.

(** X6: update never adds, removes, reorders or re-keys a record: after any
    update, successful or not, the identifiers of the stored records are,
    in order, what they were. *)
Theorem update_keeps_identifiers (announcement_id : string)
    (announcement : AnnouncementUpdate.t) (db : database) :
  Collection.ids
    (announcements_collection
       (update_announcement announcement_id announcement db).2)
  = Collection.ids (announcements_collection db).
Proof.
  rewrite update_announcement_run. destruct (not_ _); [done|].
  case_bool_decide; [done|].
  destruct (ObjectId.validate announcement_id) as [oid|]; [|done]. cbn zeta.
  pose proof (update_one_ids oid (build_update_data announcement)
                (announcements_collection db)) as Hids.
  destruct (_ =? 0); [done|]. by destruct (Collection.find_one _ _).
Qed.

(** X7: a successful delete removes exactly one record, the first one
    carrying the requested identifier; the records before and after it
    stay, in order, and the handler answers with the confirmation. *)
Theorem delete_removes_one (announcement_id username : string)
    (db db' : database) (r : dict) :
  delete_announcement announcement_id username db = (Return r, db') →
  ∃ (pre suf : collection ObjectId.t) (d : document ObjectId.t),
    announcements_collection db = pre ++ d :: suf
    ∧ announcements_collection db' = pre ++ suf
    ∧ ObjectId.validate announcement_id = Some (_id d)
    ∧ (_id d ∉ Collection.ids pre)
    ∧ r = deleted_confirmation.
Proof.
  rewrite delete_announcement_run. destruct (not_ _); [done|].
  destruct (ObjectId.validate announcement_id) as [oid|]; [|done].
  destruct (Collection.find_one oid (announcements_collection db))
    as [d|] eqn:Hf; cycle 1.
  { apply find_one_None in Hf. by rewrite (delete_one_absent _ _ Hf). }
  destruct (find_one_Some _ _ _ Hf) as [Hid _].
  destruct (find_one_split _ _ _ Hf) as (pre & suf & Hc & Hpre).
  rewrite Hc, (delete_one_middle _ _ _ _ Hpre Hid). cbn.
  intros [= <- <-]. exists pre, suf, d. subst oid. by split_and!.
Qed.

Lemma delete_removes_one_witness :
  delete_announcement "507f1f77bcf86cd799439011" "t2" school_db
  = (Return deleted_confirmation, empty_db)
  ∧ ∃ (pre suf : collection ObjectId.t) (d : document ObjectId.t),
      announcements_collection school_db = pre ++ d :: suf
      ∧ announcements_collection empty_db = pre ++ suf
      ∧ ObjectId.validate "507f1f77bcf86cd799439011" = Some (_id d)
      ∧ (_id d ∉ Collection.ids pre)
      ∧ deleted_confirmation = deleted_confirmation.
Proof.
  assert (Hrun : delete_announcement "507f1f77bcf86cd799439011" "t2" school_db
                 = (Return deleted_confirmation, empty_db))
    by (vm_compute; reflexivity).
  split; [exact Hrun|].
  exact (delete_removes_one "507f1f77bcf86cd799439011" "t2" school_db
           empty_db deleted_confirmation Hrun).
Defined.

(** X8: the identifier create answers with addresses the created record:
    for a registered author and a new 12-byte identifier, deleting by the
    returned [_id] string (as any registered member) succeeds and gives
    back the database as it was before the create. *)
Theorem create_then_delete_restores (now username : string) (fresh : ObjectId.t)
    (new_announcement : AnnouncementCreate.t) (db : database) :
  registered (AnnouncementCreate.username new_announcement) db →
  registered username db →
  fresh ∉ Collection.ids (announcements_collection db) →
  length fresh = 12%nat →
  ∃ (s : string) (r : dict) (db' : database),
    create_announcement now fresh new_announcement db = (Return r, db')
    ∧ r !! "_id" = Some (VStr s)
    ∧ delete_announcement s username db' = (Return deleted_confirmation, db).
Proof.
  intros Ha Hu Hfresh Hlen. exists (ObjectId.str fresh). eexists _, _.
  split; [by apply create_announcement_run|].
  split; [apply to_dict_id|].
  rewrite delete_announcement_run. cbn [teachers_collection announcements_collection].
  rewrite (authorized _ _ Hu), (validate_str _ Hlen).
  rewrite (delete_one_middle fresh _ (Doc fresh _) [] Hfresh eq_refl). cbn.
  by rewrite app_nil_r, database_eta.
Qed.

Lemma create_then_delete_restores_witness :
  (registered (AnnouncementCreate.username exam_friday) empty_db
   ∧ registered "t2" empty_db
   ∧ (oid1 ∉ Collection.ids (announcements_collection empty_db))
   ∧ length oid1 = 12%nat)
  ∧ ∃ (s : string) (r : dict) (db' : database),
      create_announcement "2025-01-01T08:00:00" oid1 exam_friday empty_db
      = (Return r, db')
      ∧ r !! "_id" = Some (VStr s)
      ∧ delete_announcement s "t2" db' = (Return deleted_confirmation, empty_db).
Proof.
  assert (Ha : registered (AnnouncementCreate.username exam_friday) empty_db)
    by by_compute.
  assert (Hu : registered "t2" empty_db) by by_compute.
  assert (Hfresh : oid1 ∉ Collection.ids (announcements_collection empty_db))
    by by_compute.
  assert (Hlen : length oid1 = 12%nat) by reflexivity.
  split; [by split_and!|].
  exact (create_then_delete_restores "2025-01-01T08:00:00" "t2" oid1
           exam_friday empty_db Ha Hu Hfresh Hlen).
Defined.

(** X9: a successful create adds one record to the listing and nothing
    else: for a registered author and a new identifier, list-all
    afterwards holds, in some order, the record create answered with and
    the records it held before. *)
Theorem create_adds_to_listing (now : string) (fresh : ObjectId.t)
    (new_announcement : AnnouncementCreate.t) (db : database) :
  registered (AnnouncementCreate.username new_announcement) db →
  fresh ∉ Collection.ids (announcements_collection db) →
  ∃ (r : dict) (db' : database),
    create_announcement now fresh new_announcement db = (Return r, db')
    ∧ list_all db' ≡ₚ r :: list_all db.
Proof.
  intros Ha Hfresh. eexists _, _.
  split; [by apply create_announcement_run|].
  unfold list_all, get_all_announcements, announcements.find, bind, gets, ret.
  cbn. rewrite map_app. cbn. symmetry. apply Permutation_cons_append.
Qed.

Lemma create_adds_to_listing_witness :
  (registered (AnnouncementCreate.username exam_friday) undated_db
   ∧ (oid1 ∉ Collection.ids (announcements_collection undated_db)))
  ∧ ∃ (r : dict) (db' : database),
      create_announcement "2025-01-01T08:00:00" oid1 exam_friday undated_db
      = (Return r, db')
      ∧ list_all db' ≡ₚ r :: list_all undated_db.
Proof.
  assert (Ha : registered (AnnouncementCreate.username exam_friday) undated_db)
    by by_compute.
  assert (Hfresh : oid1 ∉ Collection.ids (announcements_collection undated_db))
    by by_compute.
  split; [by split|].
  exact (create_adds_to_listing "2025-01-01T08:00:00" oid1 exam_friday
           undated_db Ha Hfresh).
Defined.

(** X10: update is idempotent: repeating a successful update with the same
    identifier and the same request answers with the same record and
    leaves the database as the first update left it. *)
Theorem update_idempotent (announcement_id : string)
    (announcement : AnnouncementUpdate.t) (db db' : database) (r : dict) :
  update_announcement announcement_id announcement db = (Return r, db') →
  update_announcement announcement_id announcement db' = (Return r, db').
Proof.
  rewrite !update_announcement_run.
  destruct (not_ _) eqn:Hauth; [done|].
  case_bool_decide as Hupd; [done|].
  destruct (ObjectId.validate announcement_id) as [oid|] eqn:Hv; [|done].
  destruct (Collection.find_one oid (announcements_collection db))
    as [d|] eqn:Hf; cycle 1.
  { apply find_one_None in Hf. by rewrite (update_one_absent _ _ _ Hf). }
  destruct (find_one_Some _ _ _ Hf) as [Hid _].
  destruct (find_one_split _ _ _ Hf) as (pre & suf & Hc & Hpre).
  rewrite Hc, (update_one_middle _ _ _ _ _ Hpre Hid). cbn.
  rewrite (find_one_middle oid pre
             (Doc oid (build_update_data announcement ∪ body d)) suf
             Hpre eq_refl).
  intros [= <- <-]. cbn [teachers_collection announcements_collection].
  rewrite Hauth.
  rewrite (update_one_middle oid _ pre
             (Doc oid (build_update_data announcement ∪ body d)) suf
             Hpre eq_refl).
  cbn. rewrite (assoc_L (∪)), (idemp_L (∪)).
  by rewrite (find_one_middle oid pre
                (Doc oid (build_update_data announcement ∪ body d)) suf
                Hpre eq_refl).
Qed.

Lemma update_idempotent_witness :
  update_announcement "507f1f77bcf86cd799439011" rename_only school_db
  = (Return (to_dict renamed_doc), renamed_db)
  ∧ update_announcement "507f1f77bcf86cd799439011" rename_only renamed_db
    = (Return (to_dict renamed_doc), renamed_db).
Proof.
  assert (Hrun : update_announcement "507f1f77bcf86cd799439011" rename_only
                   school_db = (Return (to_dict renamed_doc), renamed_db))
    by (vm_compute; reflexivity).
  split; [exact Hrun|].
  exact (update_idempotent "507f1f77bcf86cd799439011" rename_only school_db
           renamed_db (to_dict renamed_doc) Hrun).
Defined.

Section listing_facts.
Implicit Types (a b : document ObjectId.t) (c : collection ObjectId.t).

(** The window of a record is read off its rendering. *)
Lemma in_window_to_dict t a b :
  to_dict a = to_dict b → in_window t a = in_window t b.
Proof.
  intros Heq. unfold in_window, get.
  assert (∀ k, k ≠ "_id" → body a !! k = body b !! k) as Hk.
  { intros k Hne.
    assert (to_dict a !! k = to_dict b !! k) as Hl by by rewrite Heq.
    unfold to_dict in Hl. by rewrite !lookup_insert_ne in Hl. }
  by rewrite (Hk "expiration_date"), (Hk "start_date").
Qed.

Lemma elem_of_list_active t db r :
  r ∈ list_active t db
  ↔ ∃ a, r = to_dict a ∧ a ∈ announcements_collection db
         ∧ in_window t a = true.
Proof.
  unfold list_active. rewrite get_active_announcements_run. cbn.
  rewrite list_elem_of_fmap. split.
  - intros (a & -> & Hin). exists a. split; [done|].
    apply list_elem_of_In, filter_In in Hin as [Hin Hw].
    by rewrite list_elem_of_In.
  - intros (a & -> & Hin & Hw). exists a. split; [done|].
    apply list_elem_of_In, filter_In. by rewrite <-list_elem_of_In.
Qed.

Lemma to_dict_NoDup c :
  NoDup (Collection.ids c) → NoDup (map to_dict c).
Proof.
  induction c as [|a c IH]; cbn; [constructor|].
  intros [Ha Hc]%NoDup_cons. apply NoDup_cons. split; [|by apply IH].
  intros Hin. by apply Ha, to_dict_elem_of.
Qed.
End listing_facts.

(** X11: the times at which a record is listed form an interval: a record
    list-active answers with at [t1] and at [t3] is in its answer at every
    [t2] between them (string order). *)
Theorem active_times_form_interval (t1 t2 t3 : string) (db : database)
    (r : dict) :
  String.leb t1 t2 = true →
  String.leb t2 t3 = true →
  r ∈ list_active t1 db →
  r ∈ list_active t3 db →
  r ∈ list_active t2 db.
Proof.
  intros H12 H23. rewrite !elem_of_list_active.
  intros (a & -> & Ha & Hw1) (b & Hb & _ & Hw3).
  rewrite <-(in_window_to_dict t3 _ _ Hb) in Hw3.
  exists a. split_and!; [done|done|].
  unfold in_window in *.
  destruct (get (body a) "expiration_date") as [|e],
    (get (body a) "start_date") as [|s]; cbn in *; try done.
  - eauto using leb_trans.
  - rewrite andb_true_r in *.
    apply orb_true_iff in Hw3 as [He|He]; [by rewrite He|].
    apply orb_true_iff. right. eauto using leb_trans.
  - apply andb_true_iff in Hw1 as [_ Hs], Hw3 as [He _].
    apply andb_true_iff. split; [|eauto using leb_trans].
    apply orb_true_iff in He as [He|He]; [by rewrite He|].
    apply orb_true_iff. right. eauto using leb_trans.
Qed.

Lemma active_times_form_interval_witness :
  (String.leb "2025-01-02T00:00:00" "2025-01-05T00:00:00" = true
   ∧ String.leb "2025-01-05T00:00:00" "2025-01-10T00:00:00" = true
   ∧ to_dict exam_friday_doc ∈ list_active "2025-01-02T00:00:00" school_db
   ∧ to_dict exam_friday_doc ∈ list_active "2025-01-10T00:00:00" school_db)
  ∧ to_dict exam_friday_doc ∈ list_active "2025-01-05T00:00:00" school_db.
Proof.
  assert (H12 : String.leb "2025-01-02T00:00:00" "2025-01-05T00:00:00" = true)
    by reflexivity.
  assert (H23 : String.leb "2025-01-05T00:00:00" "2025-01-10T00:00:00" = true)
    by reflexivity.
  assert (H1 : to_dict exam_friday_doc
               ∈ list_active "2025-01-02T00:00:00" school_db)
    by (vm_compute; left).
  assert (H3 : to_dict exam_friday_doc
               ∈ list_active "2025-01-10T00:00:00" school_db)
    by (vm_compute; left).
  split; [by split_and!|].
  exact (active_times_form_interval "2025-01-02T00:00:00"
           "2025-01-05T00:00:00" "2025-01-10T00:00:00" school_db
           (to_dict exam_friday_doc) H12 H23 H1 H3).
Defined.

Lemma ltb_leb_trans (s t u : string) :
  String.ltb s t = true → String.leb t u = true → String.ltb s u = true.
Proof.
  rewrite !ltb_negb_leb, !negb_true_iff. intros Hts Htu.
  destruct (String.leb u s) eqn:Hus; [|done].
  by rewrite (leb_trans _ _ _ Htu Hus) in Hts.
Qed.

Lemma listed_in_window (t : string) (a : document ObjectId.t) (db : database) :
  to_dict a ∈ list_active t db → in_window t a = true.
Proof.
  intros (b & Hb & _ & Hw)%elem_of_list_active.
  by rewrite (in_window_to_dict t _ _ Hb).
Qed.



(** X13: with unique identifiers in the store, neither listing repeats a
    record: the dictionaries of list-all, and those of list-active at any
    time, are pairwise distinct. *)
Theorem listings_have_no_duplicates (now : string) (db : database) :
  unique_index db →
  NoDup (list_all db) ∧ NoDup (list_active now db).
Proof.
  unfold unique_index, Collection.unique_ids, list_all, list_active.
  intros Hdb. rewrite get_active_announcements_run.
  unfold get_all_announcements, announcements.find, bind, gets, ret. cbn.
  split; apply to_dict_NoDup; [done|].
  eapply sublist_NoDup; [exact Hdb|].
  apply (fmap_sublist _id), filter_sublist.
Qed.

Lemma listings_have_no_duplicates_witness :
  (unique_index two_db
   ∧ length (list_active "2025-01-05T00:00:00" two_db) = 2%nat)
  ∧ NoDup (list_all two_db)
  ∧ NoDup (list_active "2025-01-05T00:00:00" two_db).
Proof.
  assert (Hdb : unique_index two_db) by by_compute.
  split; [by split|].
  exact (listings_have_no_duplicates "2025-01-05T00:00:00" two_db Hdb).
Defined.

(** What a successful update did to the store. *)
Lemma update_announcement_success (announcement_id : string)
    (announcement : AnnouncementUpdate.t) (db db' : database) (r : dict) :
  update_announcement announcement_id announcement db = (Return r, db') →
  ∃ (pre suf : collection ObjectId.t) (d : document ObjectId.t),
    announcements_collection db = pre ++ d :: suf
    ∧ db' = Database
              (pre ++ Doc (_id d) (build_update_data announcement ∪ body d)
                   :: suf)
              (teachers_collection db)
    ∧ r = to_dict (Doc (_id d) (build_update_data announcement ∪ body d))
    ∧ ObjectId.validate announcement_id = Some (_id d).
Proof.
  rewrite update_announcement_run. destruct (not_ _); [done|].
  case_bool_decide; [done|].
  destruct (ObjectId.validate announcement_id) as [oid|]; [|done].
  destruct (Collection.find_one oid (announcements_collection db))
    as [d|] eqn:Hf; cycle 1.
  { apply find_one_None in Hf. by rewrite (update_one_absent _ _ _ Hf). }
  destruct (find_one_Some _ _ _ Hf) as [Hid _].
  destruct (find_one_split _ _ _ Hf) as (pre & suf & Hc & Hpre).
  rewrite Hc, (update_one_middle _ _ _ _ _ Hpre Hid). cbn.
  rewrite (find_one_middle oid pre
             (Doc oid (build_update_data announcement ∪ body d)) suf
             Hpre eq_refl).
  intros [= <- <-]. exists pre, suf, d. by subst oid.
Qed.

(** X14: on a store whose keys are 12-byte identifiers, the [_id] a
    successful update answers with is a string the key constructor
    accepts, and it denotes the key the request denoted, also when the
    request spelled it differently (upper-case digits). *)
Theorem update_returns_same_key (announcement_id : string)
    (announcement : AnnouncementUpdate.t) (db db' : database) (r : dict) :
  update_announcement announcement_id announcement db = (Return r, db') →
  well_keyed db →
  ∃ s : string,
    r !! "_id" = Some (VStr s)
    ∧ is_Some (ObjectId.validate s)
    ∧ ObjectId.validate s = ObjectId.validate announcement_id.
Proof.
  intros (pre & suf & d & Hc & _ & -> & Hv)%update_announcement_success Hkeys.
  assert (length (_id d) = 12%nat) as Hlen.
  { unfold well_keyed in Hkeys. rewrite Hc in Hkeys.
    apply Forall_app in Hkeys as [_ Hkeys].
    by apply Forall_cons in Hkeys as [? _]. }
  exists (ObjectId.str (_id d)). rewrite to_dict_id. cbn [_id].
  rewrite (validate_str _ Hlen), Hv. by split_and!.
Qed.

Lemma update_returns_same_key_witness :
  (update_announcement "507F1F77BCF86CD799439011" rename_only school_db
   = (Return (to_dict renamed_doc), renamed_db)
   ∧ well_keyed school_db)
  ∧ ∃ s : string,
      to_dict renamed_doc !! "_id" = Some (VStr s)
      ∧ is_Some (ObjectId.validate s)
      ∧ ObjectId.validate s = ObjectId.validate "507F1F77BCF86CD799439011".
Proof.
  assert (Hrun : update_announcement "507F1F77BCF86CD799439011" rename_only
                   school_db = (Return (to_dict renamed_doc), renamed_db))
    by (vm_compute; reflexivity).
  assert (Hkeys : well_keyed school_db) by by_compute.
  split; [by split|].
  exact (update_returns_same_key "507F1F77BCF86CD799439011" rename_only
           school_db renamed_db (to_dict renamed_doc) Hrun Hkeys).
Defined.

(** X15: a record that has expired stays off the list: if the expiration
    check of the loop rejects a record at [t], list-active does not answer
    with it at any later [t'] (string order), whatever else is stored. *)
Theorem expired_stays_unlisted (t t' : string) (a : document ObjectId.t)
    (db : database) :
  expired t a = true →
  String.leb t t' = true →
  to_dict a ∉ list_active t' db.
Proof.
  intros Hexp Hle Hin%listed_in_window.
  rewrite in_window_checks in Hin. apply andb_true_iff in Hin as [Hin _].
  apply negb_true_iff in Hin. unfold expired, lt in *.
  destruct (get (body a) "expiration_date") as [|e]; [done|].
  apply andb_true_iff in Hexp as [Hne Hlt]. rewrite Hne in Hin. cbn in Hin.
  by rewrite (ltb_leb_trans _ _ _ Hlt Hle) in Hin.
Qed.

Lemma expired_stays_unlisted_witness :
  (expired "2025-01-11T00:00:00" exam_friday_doc = true
   ∧ String.leb "2025-01-11T00:00:00" "2025-06-30T12:00:00" = true)
  ∧ to_dict exam_friday_doc ∉ list_active "2025-06-30T12:00:00" school_db.
Proof.
  assert (Hexp : expired "2025-01-11T00:00:00" exam_friday_doc = true)
    by reflexivity.
  assert (Hle : String.leb "2025-01-11T00:00:00" "2025-06-30T12:00:00" = true)
    by reflexivity.
  split; [by split|].
  exact (expired_stays_unlisted "2025-01-11T00:00:00" "2025-06-30T12:00:00"
           exam_friday_doc school_db Hexp Hle).
Defined.



(** X17: with unique identifiers in the store, a deleted record is gone
    from the listing: after a successful delete, no record of list-all
    carries the deleted identifier. *)
Theorem deleted_is_unlisted (announcement_id username : string)
    (oid : ObjectId.t) (db db' : database) (r : dict) :
  delete_announcement announcement_id username db = (Return r, db') →
  unique_index db →
  ObjectId.validate announcement_id = Some oid →
  Forall (λ x : dict, x !! "_id" ≠ Some (VStr (ObjectId.str oid)))
    (list_all db').
Proof.
  rewrite delete_announcement_run. destruct (not_ _); [done|].
  intros Hrun Huniq Hv. rewrite Hv in Hrun.
  destruct (Collection.find_one oid (announcements_collection db))
    as [d|] eqn:Hf; cycle 1.
  { apply find_one_None in Hf. by rewrite (delete_one_absent _ _ Hf) in Hrun. }
  destruct (find_one_Some _ _ _ Hf) as [Hid _].
  destruct (find_one_split _ _ _ Hf) as (pre & suf & Hc & Hpre).
  unfold unique_index in Huniq. rewrite Hc in Huniq, Hrun.
  rewrite (delete_one_middle _ _ _ _ Hpre Hid) in Hrun. cbn in Hrun.
  injection Hrun as _ <-.
  pose proof (unique_ids_middle _ _ _ _ Huniq Hid) as Hgone.
  unfold list_all, get_all_announcements, announcements.find, bind, gets, ret.
  cbn. apply Forall_forall. intros x (a & -> & Ha)%list_elem_of_fmap.
  rewrite to_dict_id. intros [= Heq%str_inj]. apply Hgone.
  unfold Collection.ids. apply list_elem_of_fmap. eauto.
Qed.

Lemma deleted_is_unlisted_witness :
  (delete_announcement "507f1f77bcf86cd799439011" "t2" two_db
   = (Return deleted_confirmation, undated_db)
   ∧ unique_index two_db
   ∧ ObjectId.validate "507f1f77bcf86cd799439011" = Some oid1
   ∧ list_all undated_db = [to_dict undated_doc])
  ∧ Forall (λ x : dict, x !! "_id" ≠ Some (VStr (ObjectId.str oid1)))
      (list_all undated_db).
Proof.
  assert (Hrun : delete_announcement "507f1f77bcf86cd799439011" "t2" two_db
                 = (Return deleted_confirmation, undated_db))
    by (vm_compute; reflexivity).
  assert (Huniq : unique_index two_db) by by_compute.
  assert (Hv : ObjectId.validate "507f1f77bcf86cd799439011" = Some oid1)
    by reflexivity.
  split; [by split_and!|].
  exact (deleted_is_unlisted "507f1f77bcf86cd799439011" "t2" oid1 two_db
           undated_db deleted_confirmation Hrun Huniq Hv).
Defined.

(** X18: the listing depends on the two dates only: a successful update
    that supplies neither start_date nor expiration_date leaves, at every
    time, the same identifiers in list-active, in the same order. *)
Theorem update_without_dates_keeps_listing (announcement_id t : string)
    (announcement : AnnouncementUpdate.t) (db db' : database) (r : dict) :
  update_announcement announcement_id announcement db = (Return r, db') →
  AnnouncementUpdate.start_date announcement = None →
  AnnouncementUpdate.expiration_date announcement = None →
  map (λ x : dict, x !! "_id") (list_active t db')
  = map (λ x : dict, x !! "_id") (list_active t db).
Proof.
  intros (pre & suf & d & Hc & -> & _ & _)%update_announcement_success Hs He.
  assert (in_window t (Doc (_id d) (build_update_data announcement ∪ body d))
          = in_window t d) as Hw.
  { unfold in_window, get. cbn [body]. rewrite !patched_lookup.
    unfold supplied. cbn. by rewrite Hs, He. }
  unfold list_active. rewrite !get_active_announcements_run. cbn.
  rewrite Hc, !List.filter_app, !map_app. f_equal.
  cbn [List.filter]. rewrite Hw.
  destruct (in_window t d); [|done]. cbn [map]. f_equal.
  by rewrite !to_dict_id.
Qed.

Lemma update_without_dates_keeps_listing_witness :
  (update_announcement "507f1f77bcf86cd799439011" rename_only school_db
   = (Return (to_dict renamed_doc), renamed_db)
   ∧ AnnouncementUpdate.start_date rename_only = None
   ∧ AnnouncementUpdate.expiration_date rename_only = None)
  ∧ map (λ x : dict, x !! "_id") (list_active "2025-01-05T00:00:00" renamed_db)
    = map (λ x : dict, x !! "_id") (list_active "2025-01-05T00:00:00" school_db).
Proof.
  assert (Hrun : update_announcement "507f1f77bcf86cd799439011" rename_only
                   school_db = (Return (to_dict renamed_doc), renamed_db))
    by (vm_compute; reflexivity).
  split; [by split_and!|].
  exact (update_without_dates_keeps_listing "507f1f77bcf86cd799439011"
           "2025-01-05T00:00:00" rename_only school_db renamed_db
           (to_dict renamed_doc) Hrun eq_refl eq_refl).
Defined.

(** An identifier of 24 characters with white space between digit pairs is
    accepted by the key constructor and denotes a shorter key, which no
    stored record carries. *)
Example spaced_identifier :
  ObjectId.validate "50 7f 1f77bcf86cd7994390"
  = Some [x50; x7f; x1f; x77; xbc; xf8; x6c; xd7; x99; x43; x90]%byte.
Proof. reflexivity. Qed.

Example delete_with_spaced_identifier :
  delete_announcement "50 7f 1f77bcf86cd7994390" "t1" school_db
  = (Raise (HTTPException 404 "Announcement not found"), school_db).
Proof. vm_compute. reflexivity. Qed.

Example space_inside_a_pair : ObjectId.validate "5 07f1f77bcf86cd79943901" = None.
Proof. reflexivity. Qed.

Example non_hexadecimal_identifier :
  ObjectId.validate "zzzzzzzzzzzzzzzzzzzzzzzz" = None.
Proof. reflexivity. Qed.
